(** * TaskMGR: the sampling thread and the pinned-process dashboard

    A shallow embedding of [src/taskmgr.py].  The two classes of the
    program are kept apart as two modules:

    - [SystemMonitor]: the six collectors [_get_*_data] and the sampling
      loop [run];
    - [SystemDashboard]: the pinned-process cell [pinned_pid], its
      reconciliation in [_update_processes], and the two kill commands.

    What the operating system answers (psutil, GPUtil, platform, the files
    under /proc and /sys) is not part of the program: every call into it is
    a field of a record of readings, and a call that raises is a [Raise]
    reading.  Python floats are carried as exact rationals ([Q]): the
    statements below rest on their order and equality only, and the texts
    that the program formats from them are kept as the numbers formatted.
    Where the program computes with a float whose value a statement
    depends on, the result is rounded as binary64 arithmetic rounds it
    ([float_mul]). *)

From Stdlib Require Import QArith Qpower Ascii String.
From stdpp Require Import base list sorting strings gmap pretty.

Local Open Scope string_scope.
Local Open Scope list_scope.
Local Open Scope Z_scope.

(** ** Exceptions and results *)

(** A Python exception of class [Exception], with the text [str(e)]. *)
Record exn := Exc { exc_msg : string }.

(** The outcome of evaluating an expression that may raise. *)
Inductive result (A : Type) : Type :=
| Ok (a : A)
| Raise (e : exn).
Arguments Ok {A} a.
Arguments Raise {A} e.

(** Sequencing: the first exception ends the evaluation.  With these two
    instances [x ← r; k] is stdpp's notation for it. *)
#[global] Instance result_ret : MRet result := λ A a, Ok a.
#[global] Instance result_bind : MBind result := λ A B k r,
  match r with
  | Ok a => k a
  | Raise e => Raise e
  end.

(** A comprehension whose element expression may raise: elements are
    evaluated left to right and the first exception ends the evaluation. *)
Fixpoint rmap {A B} (f : A → result B) (l : list A) : result (list B) :=
  match l with
  | [] => Ok []
  | a :: l' => b ← f a; bs ← rmap f l'; Ok (b :: bs)
  end.

Definition is_ok {A} (r : result A) : bool :=
  match r with Ok _ => true | Raise _ => false end.

(** ** Readings of the operating system *)

(** [psutil.virtual_memory()] *)
Record svmem := { vm_total : Z; vm_used : Z; vm_percent : Q }.

(** An entry of [psutil.disk_partitions()] *)
Record sdiskpart := { part_device : string; part_mountpoint : string }.

(** [psutil.disk_usage(path)] *)
Record sdiskusage := { du_total : Z; du_used : Z; du_percent : Q }.

(** A device of [GPUtil.getGPUs()] *)
Record GPU := {
  gpu_name : string;
  gpu_memoryUsed : Q;
  gpu_memoryTotal : Q;
  gpu_load : Q;
  gpu_temperature : Q
}.

(** [p.info['memory_info']], of which the program reads [rss]. *)
Record pmem := { pmem_rss : Z }.

(** [p.info] of a process yielded by
    [psutil.process_iter(['pid', 'name', 'cpu_percent', 'memory_info'])].
    An attribute that psutil could not read (access denied, zombie
    process) is [None]; the pid is always there. *)
Record pinfo := {
  info_pid : Z;
  info_name : option string;
  info_cpu_percent : option Q;
  info_memory_info : option pmem
}.

(** [psutil.net_io_counters()]: one pair of counters for the whole host. *)
Record snetio := { io_bytes_sent : Z; io_bytes_recv : Z }.

(** An address of an interface in [psutil.net_if_addrs()] *)
Record snicaddr := { nic_address : string }.

(** The status of an interface in [psutil.net_if_stats()] *)
Record snicstats := { nic_isup : bool }.

(** Everything one iteration of the sampling loop reads.  The body of the
    [try] in [_get_cpu_model] and in [_get_cpu_temp] is a reading as a
    whole (file access and text parsing are the platform's): the model
    name found, and the first thermal zone in millidegrees, [None] when
    the body falls through without a [return]. *)
Record os_readings := {
  os_cpu_freq : result (option Q);
  os_cpu_count : bool → result (option Z);
  os_cpu_percent : result Q;
  os_cpu_model_body : result string;
  os_cpu_temp_body : result (option Z);
  os_getGPUs : result (list GPU);
  os_virtual_memory : result svmem;
  os_disk_partitions : result (list sdiskpart);
  os_disk_usage : string → result sdiskusage;
  os_process_iter : result (list pinfo);
  os_net_io_counters : result snetio;
  os_net_if_addrs : result (gmap string (list snicaddr));
  os_net_if_stats : result (gmap string snicstats)
}.

(** ** Lists sorted the way [sorted(..., key=..., reverse=True)] sorts *)

Section key_sort.
Context {A : Type} (key : A → Q).

(** [x] goes in front of the first element whose key is not above its
    own: behind every larger key, ahead of every equal one. *)
Fixpoint insert_desc (x : A) (l : list A) : list A :=
  match l with
  | [] => [x]
  | y :: l' =>
      if Qle_bool (key y) (key x) then x :: y :: l'
      else y :: insert_desc x l'
  end.

(** Python's [sorted] is stable, also with [reverse=True]: elements with
    equal keys keep the order of the input.  Inserting from the right
    end, each element ahead of its equals, is that sort. *)
Definition sorted_reverse (l : list A) : list A :=
  foldr insert_desc [] l.

(** Descending by key: an element is at least every later one. *)
Definition key_desc (a b : A) : Prop := (key b <= key a)%Q.

(** A second key [rank], ascending, and the order "descending by key,
    ties in ascending order of rank". *)
Context (rank : A → Z).

Definition rank_asc (a b : A) : Prop := rank a < rank b.

Definition key_desc_rank_asc (a b : A) : Prop :=
  (key b < key a)%Q ∨ (key a == key b)%Q ∧ rank a < rank b.

End key_sort.

#[global] Instance Qeq_decision (x y : Q) : Decision (x == y)%Q := Qeq_dec x y.

(** [s.split('/')[-1]]: what follows the last slash, the whole of [s] when
    it has none. *)
Fixpoint split_last_from (acc : string) (s : string) : string :=
  match s with
  | EmptyString => acc
  | String c s' =>
      if Ascii.eqb c "/"%char then split_last_from EmptyString s'
      else split_last_from (acc +:+ String c EmptyString) s'
  end.

Definition split_last (s : string) : string := split_last_from EmptyString s.

(** [s.split(sep)] for a separator of one character: the texts between
    the separators, one more than there are separators. *)
Fixpoint split_from (sep : ascii) (acc : string) (s : string) : list string :=
  match s with
  | EmptyString => [acc]
  | String c s' =>
      if Ascii.eqb c sep then acc :: split_from sep EmptyString s'
      else split_from sep (acc +:+ String c EmptyString) s'
  end.

Definition split (sep : ascii) (s : string) : list string :=
  split_from sep EmptyString s.

(** Truth value of a string and of an optional string in a Python
    condition. *)
Definition str_truthy (s : string) : bool :=
  match s with EmptyString => false | String _ _ => true end.

Definition name_truthy (n : option string) : bool :=
  match n with Some s => str_truthy s | None => false end.

(** [if self.pinned_pid:] holds for a pid other than 0, which the branch
    then uses; [None] and 0 are false. *)
Definition pid_truthy (p : option Z) : option Z :=
  match p with
  | Some n => if n =? 0 then None else Some n
  | None => None
  end.

(** [int(x)] of a float: the integer part, rounded towards zero. *)
Definition int (x : Q) : Z := Z.quot (Qnum x) (Z.pos (Qden x)).

(** The integer nearest to [n / d], the even one of two that are equally
    near. *)
Definition round_half_even (n : Z) (d : positive) : Z :=
  let m := n / Z.pos d in
  match 2 * (n mod Z.pos d) ?= Z.pos d with
  | Lt => m
  | Eq => if Z.even m then m else m + 1
  | Gt => m + 1
  end.

(** The binary64 number nearest to a positive [q]: 53 significant bits
    at the binary exponent of [q], which is not taken below -1022
    (subnormal numbers); ties go to the even significand.  Overflow is
    left out: the result is meant for [q] below 2 ^ 1024. *)
Definition binary64_pos (q : Q) : Q :=
  let e0 := Z.log2 (Qnum q) - Z.log2 (Z.pos (Qden q)) in
  let e := Z.max (if Qle_bool (2 ^ e0) q then e0 else e0 - 1) (-1022) in
  let scaled := (q * 2 ^ (52 - e))%Q in
  (inject_Z (round_half_even (Qnum scaled) (Qden scaled)) * 2 ^ (e - 52))%Q.

Definition binary64 (q : Q) : Q :=
  match Qnum q with
  | 0 => 0%Q
  | Z.pos _ => binary64_pos q
  | Z.neg _ => (- binary64_pos (- q))%Q
  end.

(** [x * y] on floats: the exact product, rounded. *)
Definition float_mul (x y : Q) : Q := binary64 (x * y).

(** ** The snapshot *)

(** A row of the process list as the sampling thread builds it: the
    tuple [(pid, name, cpu_percent, rss)], with the values of
    [p.info['name']] and [p.info['cpu_percent']] as they are, [None]
    included. *)
Definition sampled_row : Type := Z * option string * option Q * Z.

Definition sampled_pid (x : sampled_row) : Z := x.1.1.1.
Definition sampled_name (x : sampled_row) : option string := x.1.1.2.
Definition sampled_cpu (x : sampled_row) : option Q := x.1.2.
Definition sampled_rss (x : sampled_row) : Z := x.2.

(** [sorted(rows, key=lambda x: x[2], reverse=True)].  A list of fewer
    than two rows is returned without a comparison.  From two rows on,
    the key of every row is compared with the key of another row, and a
    comparison with a key that is [None] raises a [TypeError] (its text
    names the types of the two keys compared; the one given here stands
    for it).  In the remaining case every key is a float. *)
Definition sorted_cpu_reverse (rows : list sampled_row)
    : result (list sampled_row) :=
  match rows with
  | [] | [_] => Ok rows
  | _ :: _ :: _ =>
      if forallb (λ x, bool_decide (is_Some (sampled_cpu x))) rows
      then Ok (sorted_reverse (λ x, default 0%Q (sampled_cpu x)) rows)
      else Raise (Exc ("'<' not supported between instances of "
                       +:+ "'NoneType' and 'float'"))
  end.

(** A row of the process list as the dashboard shows it: a tuple
    [(pid, name, cpu_percent, rss)] whose cpu percent is a float.  The
    name is the value of [p.info['name']] as it is, a string or
    [None]. *)
Definition proc_row : Type := Z * option string * Q * Z.

Definition row_pid (x : proc_row) : Z := x.1.1.1.
Definition row_name (x : proc_row) : option string := x.1.1.2.
Definition row_cpu (x : proc_row) : Q := x.1.2.
Definition row_rss (x : proc_row) : Z := x.2.

(** The text fields of the CPU entry, by what they are formatted from. *)
Inductive cpu_frequency := FreqGHz (ghz : Q) | FreqNA.
Inductive cpu_temp := TempC (celsius : Q) | TempNA | TempNone.

Record cpu_data := {
  cpu_Model : string;
  cpu_Cores : option Z * option Z;
  cpu_Frequency : cpu_frequency;
  cpu_Temperature : cpu_temp;
  cpu_Load : Q
}.

Record gpu_data := {
  gd_name : string;
  gd_memory : Q * Q;
  gd_load : Q;
  gd_temp : Q
}.

Record memory_data := { md_total : Z; md_used : Z; md_percent : Q }.

Record disk_data := {
  dd_device : string;
  dd_mount : string;
  dd_total : Z;
  dd_used : Z;
  dd_percent : Q
}.

Record iface_stats := { bytes_sent : Z; bytes_recv : Z; is_up : bool }.

Record iface_data := { addresses : list string; stats : iface_stats }.

Record network_data := { interfaces : gmap string iface_data }.

(** The dictionary [data] that [run] emits. *)
Record snapshot := {
  cpu : cpu_data;
  gpu : list gpu_data;
  memory : memory_data;
  disk : list disk_data;
  processes : list sampled_row;
  network : network_data
}.

(** ** What the two threads do that can be observed *)

Inductive event :=
| EvEmit (d : snapshot)
| EvSleep (ms : Z)
| EvPrint (text : string).

(** A statement: the events it performed, and whether it ended or raised. *)
Definition stmt (A : Type) : Type := list event * result A.

Definition perform (ev : event) : stmt unit := ([ev], Ok ()).

Definition eval {A} (r : result A) : stmt A := ([], r).

#[global] Instance stmt_ret : MRet stmt := λ A a, ([], Ok a).
#[global] Instance stmt_bind : MBind stmt := λ A B k c,
  match c with
  | (t, Ok a) => let '(t', r) := k a in (t ++ t', r)
  | (t, Raise e) => (t, Raise e)
  end.

(** [try: body except Exception as e: handler(e)] *)
Definition try_except {A} (body : stmt A) (handler : exn → stmt A) : stmt A :=
  match body with
  | (t, Ok a) => (t, Ok a)
  | (t, Raise e) => let '(t', r) := handler e in (t ++ t', r)
  end.

(** [while True: body], cut after [fuel] iterations.  The loop has no
    [break]: it ends only when its body raises.  [Ok ()] means that the
    loop is still running after [fuel] iterations.  The body of
    iteration [k] is [body k]. *)
Fixpoint while_true (fuel : nat) (body : nat → stmt unit) (k : nat) : stmt unit :=
  match fuel with
  | O => mret ()
  | S fuel' => _ ← body k; while_true fuel' body (S k)
  end.

(** ** The sampling thread *)

Module SystemMonitor.

Definition _get_cpu_model (os : os_readings) : string :=
  match os_cpu_model_body os with
  | Ok model => model
  | Raise _ => "Unknown"
  end.

Definition _get_cpu_temp (os : os_readings) : cpu_temp :=
  match os_cpu_temp_body os with
  | Ok (Some milli) => TempC (inject_Z milli / 1000)
  | Ok None => TempNone
  | Raise _ => TempNA
  end.

Definition _get_cpu_data (os : os_readings) : result cpu_data :=
  freq ← os_cpu_freq os;
  let model := _get_cpu_model os in
  physical ← os_cpu_count os false;
  logical ← os_cpu_count os true;
  let temp := _get_cpu_temp os in
  load ← os_cpu_percent os;
  Ok {| cpu_Model := model;
        cpu_Cores := (physical, logical);
        cpu_Frequency :=
          match freq with
          | Some current => FreqGHz (current / 1000)
          | None => FreqNA
          end;
        cpu_Temperature := temp;
        cpu_Load := load |}.

Definition _get_gpu_data (os : os_readings) : result (list gpu_data) :=
  gpus ← os_getGPUs os;
  Ok ((λ gpu, {| gd_name := gpu_name gpu;
                 gd_memory := (gpu_memoryUsed gpu, gpu_memoryTotal gpu);
                 gd_load := float_mul (gpu_load gpu) 100;
                 gd_temp := gpu_temperature gpu |}) <$> (gpus : list GPU)).

Definition _get_memory_data (os : os_readings) : result memory_data :=
  mem ← os_virtual_memory os;
  Ok {| md_total := vm_total mem;
        md_used := vm_used mem;
        md_percent := vm_percent mem |}.

Definition _get_disk_data (os : os_readings) : result (list disk_data) :=
  parts ← os_disk_partitions os;
  rmap (λ part,
          du ← os_disk_usage os (part_mountpoint part);
          Ok {| dd_device := split_last (part_device part);
                dd_mount := part_mountpoint part;
                dd_total := du_total du;
                dd_used := du_used du;
                dd_percent := du_percent du |})
       (filter (λ part, str_truthy (part_mountpoint part))
               (parts : list sdiskpart)).

(** The comprehension is evaluated first: [p.info['memory_info'].rss]
    raises an [AttributeError] for a process with a name whose memory
    information is [None].  Then the rows are sorted, then cut. *)
Definition _get_process_data (os : os_readings) : result (list sampled_row) :=
  procs ← os_process_iter os;
  rows ← rmap (λ p,
                 match info_memory_info p with
                 | Some mem =>
                     Ok (info_pid p, info_name p, info_cpu_percent p,
                         pmem_rss mem)
                 | None =>
                     Raise (Exc "'NoneType' object has no attribute 'rss'")
                 end)
              (filter (λ p, name_truthy (info_name p)) (procs : list pinfo));
  sorted_rows ← sorted_cpu_reverse rows;
  Ok (take 100 sorted_rows).

Definition _get_network_data (os : os_readings) : result network_data :=
  net ← os_net_io_counters os;
  addrs ← os_net_if_addrs os;
  stats ← os_net_if_stats os;
  Ok {| interfaces :=
          map_imap (λ iface (addr_list : list snicaddr),
            Some {| addresses := nic_address <$> addr_list;
                    stats := {| bytes_sent := io_bytes_sent net;
                                bytes_recv := io_bytes_recv net;
                                is_up := match stats !! iface with
                                         | Some st => nic_isup st
                                         | None => false
                                         end |} |}) addrs |}.

(** The dictionary literal of [run]: the six collectors in the order of
    its keys. *)
Definition data (os : os_readings) : result snapshot :=
  c ← _get_cpu_data os;
  g ← _get_gpu_data os;
  m ← _get_memory_data os;
  d ← _get_disk_data os;
  p ← _get_process_data os;
  n ← _get_network_data os;
  Ok {| cpu := c; gpu := g; memory := m; disk := d;
        processes := p; network := n |}.

(** One iteration of the loop of [run]: the [try] statement. *)
Definition iteration (os : os_readings) : stmt unit :=
  try_except
    (d ← eval (data os);
     _ ← perform (EvEmit d);
     perform (EvSleep 3500))
    (λ e, perform (EvPrint ("Monitoring error: " +:+ exc_msg e))).

(** [run], cut after [fuel] iterations; [os k] is what the operating
    system answers during iteration [k]. *)
Definition run (fuel : nat) (os : nat → os_readings) : stmt unit :=
  while_true fuel (λ k, iteration (os k)) 0.

(** *** The body of the [try] of [_get_cpu_model]

    [strip] and [replace] are Python's [str.strip] and [str.replace]
    ([replace old new s] is [s.replace(old, new)]); nothing is assumed
    about them.  A file of [glob.glob("/proc/cpuinfo")] is the list of
    its lines, or what [open] raises. *)

Section cpu_model_reader.
Context (strip : string → string).
Context (replace : string → string → string → string).

(** A line of the file: [None] when the line does not start a model
    name, so that the loop goes on; otherwise what the [return]
    statement gives, an [IndexError] when the line has no colon. *)
Definition model_of_line (line : string) : option (result string) :=
  if String.prefix "model name" (strip line) then
    Some match split ":" line !! 1%nat with
         | Some field =>
             Ok (replace "(TM)" "" (replace "(R)" "" (strip field)))
         | None => Raise (Exc "list index out of range")
         end
  else None.

Fixpoint model_of_lines (lines : list string) : option (result string) :=
  match lines with
  | [] => None
  | line :: lines' =>
      match model_of_line line with
      | Some r => Some r
      | None => model_of_lines lines'
      end
  end.

Fixpoint model_of_files (files : list (result (list string)))
    : option (result string) :=
  match files with
  | [] => None
  | Raise e :: _ => Some (Raise e)
  | Ok lines :: files' =>
      match model_of_lines lines with
      | Some r => Some r
      | None => model_of_files files'
      end
  end.

(** [system] is [platform.system()], [processor] is
    [platform.processor()]. *)
Definition cpu_model_body (system : string)
    (files : list (result (list string))) (processor : result string)
    : result string :=
  if String.eqb system "Linux" then
    match model_of_files files with
    | Some r => r
    | None => processor
    end
  else processor.

End cpu_model_reader.

End SystemMonitor.

(** ** The dashboard: the pinned process *)

Module SystemDashboard.

(** The part of the widget the pin commands read and write: the cell
    [pinned_pid] and the rows of [process_table], whose first column is
    read back as the pid of a row. *)
Record dashboard := {
  pinned_pid : option Z;
  process_table : list proc_row
}.

(** The message boxes a command shows, in order. *)
Inductive dialog :=
| Question (title text : string)
| Information (title text : string)
| Critical (title text : string)
| Warning (title text : string).

(** The first half of [_update_processes]: the [if self.pinned_pid] block
    with its [try] and bare [except].  [os_Process pid] is the live query
    [(p.name(), p.cpu_percent(), p.memory_info().rss)] on
    [psutil.Process(pid)], [Raise] when any of its calls raises; [p.pid]
    is [pid]. *)
Definition reconcile (os_Process : Z → result (string * Q * Z))
    (pinned : option Z) (processes : list proc_row)
    : option Z * list proc_row :=
  match pid_truthy pinned with
  | Some pid =>
      match os_Process pid with
      | Ok (name, cpu_percent, rss) =>
          (pinned,
           (pid, Some name, cpu_percent, rss)
             :: filter (λ proc, row_pid proc ≠ pid) processes)
      | Raise _ => (None, processes)
      end
  | None => (pinned, processes)
  end.

(** The table shows the first 100 rows of the reconciled list (texts are
    kept as the values they are formatted from; the colouring of the rows
    is left out). *)
Definition _update_processes (os_Process : Z → result (string * Q * Z))
    (st : dashboard) (processes : list proc_row) : dashboard :=
  let '(pinned, processes) := reconcile os_Process (pinned_pid st) processes in
  {| pinned_pid := pinned; process_table := take 100 processes |}.

(** [self.pinned_pid = pid if self.pinned_pid != pid else None] *)
Definition toggle (pinned : option Z) (pid : Z) : option Z :=
  if decide (pinned ≠ Some pid) then Some pid else None.

(** A click on a cell of row [row].  A row that the table does not have
    has no item to read the pid from. *)
Definition _toggle_pinned_process (st : dashboard) (row : nat) : result dashboard :=
  match process_table st !! row with
  | Some r =>
      Ok {| pinned_pid := toggle (pinned_pid st) (row_pid r);
            process_table := process_table st |}
  | None => Raise (Exc "'NoneType' object has no attribute 'text'")
  end.

(** Ctrl+Z.  [confirm] is the answer to the question box, [os_terminate]
    is [psutil.Process(pid).terminate()]. *)
Definition _kill_pinned_process (os_terminate : Z → result unit)
    (confirm : bool) (st : dashboard) : dashboard * list dialog :=
  match pid_truthy (pinned_pid st) with
  | Some pid =>
      let question :=
        Question "Confirm Termination"
                 ("Terminate process PID " +:+ pretty pid +:+ "?") in
      if confirm then
        match os_terminate pid with
        | Ok _ =>
            ({| pinned_pid := None; process_table := process_table st |},
             [question; Information "Success" "Pinned process terminated"])
        | Raise e =>
            (st, [question; Critical "Error" ("Error: " +:+ exc_msg e)])
        end
      else (st, [question])
  | None => (st, [Warning "Warning" "No pinned process selected"])
  end.

(** The button under the table.  [current_row] is
    [self.process_table.currentRow()], negative when no row is current. *)
Definition _kill_process (os_terminate : Z → result unit)
    (current_row : Z) (st : dashboard) : dashboard * list dialog :=
  if 0 <=? current_row then
    match process_table st !! Z.to_nat current_row with
    | Some r =>
        let pid := row_pid r in
        match os_terminate pid with
        | Ok _ =>
            (st, [Information "Успешно"
                              ("Процесс " +:+ pretty pid +:+ " завершен")])
        | Raise e => (st, [Critical "Ошибка" ("Ошибка: " +:+ exc_msg e)])
        end
    | None =>
        (st, [Critical "Ошибка"
                       "Ошибка: 'NoneType' object has no attribute 'text'"])
    end
  else (st, []).

(** [_highlight_pinned_process]: for every row of the table, whether its
    cells get the highlight colour ([true]) or the default colour
    ([false]).  Every cell of every row is coloured anew. *)
Definition _highlight_pinned_process (st : dashboard) : list bool :=
  (λ r, match pid_truthy (pinned_pid st) with
        | Some pid => bool_decide (row_pid r = pid)
        | None => false
        end) <$> process_table st.

(** *** The meters and the tables of the other tabs *)

(** A second column of the CPU table. *)
Inductive cpu_cell :=
| CellModel (model : string)
| CellCores (cores : option Z * option Z)
| CellFrequency (frequency : cpu_frequency)
| CellTemperature (temperature : cpu_temp).

(** [_update_cpu]: the value given to the meter, and the rows. *)
Definition _update_cpu (data : cpu_data) : Z * list (string * cpu_cell) :=
  (int (cpu_Load data),
   [ ("Model", CellModel (cpu_Model data));
     ("Cores/Threads", CellCores (cpu_Cores data));
     ("Frequency", CellFrequency (cpu_Frequency data));
     ("Temperature", CellTemperature (cpu_Temperature data)) ]).



(** [_update_memory]: the value given to the meter, and the one row:
    total, used and available bytes. *)
Definition _update_memory (data : memory_data) : Z * list (Z * Z * Z) :=
  (int (md_percent data),
   [ (md_total data, md_used data, md_total data - md_used data) ]).

(** *** The table widget *)

(** A [QTableWidget] of [columnCount] columns: every row has
    [columnCount] cells, each with an item (its text) or none. *)
Record QTableWidget := {
  columnCount : nat;
  cells : list (list (option string))
}.

(** [setRowCount(n)]: rows beyond [n] are discarded, missing rows are
    added without items. *)
Definition setRowCount (n : nat) (table : QTableWidget) : QTableWidget :=
  {| columnCount := columnCount table;
     cells := resize n (replicate (columnCount table) None) (cells table) |}.

(** [setItem(row, col, QTableWidgetItem(text))]: a cell outside the table
    is not set. *)
Definition setItem (row col : nat) (text : string) (table : QTableWidget)
    : QTableWidget :=
  {| columnCount := columnCount table;
     cells := alter (λ r, <[col := Some text]> r) row (cells table) |}.

(** [_update_table]; [data] holds the texts [str(item)]. *)
Definition _update_table (table : QTableWidget) (data : list (list string))
    : QTableWidget :=
  foldl (λ table '(row, items),
           foldl (λ table '(col, item), setItem row col item table)
                 table (imap pair (items : list string)))
        (setRowCount (length data) table)
        (imap pair data).

(** *** The window and its signals *)

(** The dashboard together with the colouring of the rows of its table. *)
Record window := {
  state : dashboard;
  highlighted : list bool
}.

(** What [__init__] leaves: nothing pinned, a table without rows. *)
Definition __init__ : window :=
  {| state := {| pinned_pid := None; process_table := [] |};
     highlighted := [] |}.

(** The signals connected to the four slots above:
    [monitor.data_updated] (through [_update_ui]),
    [process_table.cellClicked], [shortcut_kill_pinned.activated] and
    [kill_btn.clicked], each with what the operating system and the
    user answer while the slot runs. *)
Inductive signal :=
| data_updated (os_Process : Z → result (string * Q * Z))
    (processes : list proc_row)
| cellClicked (row : nat)
| activated (os_terminate : Z → result unit) (confirm : bool)
| clicked (os_terminate : Z → result unit) (current_row : Z).

(** A slot, with the colouring it leaves.  [_update_processes] and
    [_toggle_pinned_process] end with [_highlight_pinned_process];
    [_kill_pinned_process] calls it after a successful termination only;
    [_kill_process] does not call it. *)
Definition slot (w : window) (s : signal) : result (window * list dialog) :=
  match s with
  | data_updated os_Process processes =>
      let st := _update_processes os_Process (state w) processes in
      Ok ({| state := st; highlighted := _highlight_pinned_process st |}, [])
  | cellClicked row =>
      st ← _toggle_pinned_process (state w) row;
      Ok ({| state := st; highlighted := _highlight_pinned_process st |}, [])
  | activated os_terminate confirm =>
      let '(st, dialogs) :=
        _kill_pinned_process os_terminate confirm (state w) in
      Ok ({| state := st;
             highlighted :=
               match pid_truthy (pinned_pid (state w)) with
               | Some pid =>
                   if confirm && is_ok (os_terminate pid)
                   then _highlight_pinned_process st
                   else highlighted w
               | None => highlighted w
               end |}, dialogs)
  | clicked os_terminate current_row =>
      let '(st, dialogs) := _kill_process os_terminate current_row (state w) in
      Ok ({| state := st; highlighted := highlighted w |}, dialogs)
  end.

(** The slots run one after the other, in the order of the signals; a
    slot that raises ends the run. *)
Fixpoint slots (w : window) (signals : list signal) : result window :=
  match signals with
  | [] => Ok w
  | s :: signals' => r ← slot w s; slots r.1 signals'
  end.

End SystemDashboard.

(** ** Vocabulary of the statements *)

(** The enumerated processes with a name. *)
Definition named (procs : list pinfo) : list pinfo :=
  filter (λ p, name_truthy (info_name p)) procs.

(** The tuple of the comprehension of [_get_process_data] for a process
    whose memory information is [mem]. *)
Definition tuple_of (p : pinfo) (mem : pmem) : sampled_row :=
  (info_pid p, info_name p, info_cpu_percent p, pmem_rss mem).

(** The rows of the comprehension, before they are sorted and cut: one
    per enumerated process with a name and a memory information. *)
Definition named_rows (procs : list pinfo) : list sampled_row :=
  omap (λ p, tuple_of p <$> info_memory_info p) (named procs).

(** A row comes before another one: both have a cpu percent, and the
    first has the larger one, or the same and the smaller pid. *)
Definition cpu_desc_pid_asc_rel (a b : sampled_row) : Prop :=
  ∃ x y, sampled_cpu a = Some x ∧ sampled_cpu b = Some y
         ∧ ((y < x)%Q ∨ (x == y)%Q ∧ sampled_pid a < sampled_pid b).

(** The process list of a snapshot as section 8 of the specification
    wants it: by descending load, equal loads by ascending pid. *)
Definition cpu_desc_pid_asc (rows : list sampled_row) : Prop :=
  StronglySorted cpu_desc_pid_asc_rel rows.

(** The order in which psutil documents that [process_iter] yields the
    processes: by ascending pid, every pid once. *)
Definition pid_order (procs : list pinfo) : Prop :=
  StronglySorted (rank_asc info_pid) procs.

(** Readings as psutil computes them: the bytes used are a part of the
    total (total minus what is available or free). *)
Definition used_within_total (os : os_readings) : Prop :=
  (∀ mem, os_virtual_memory os = Ok mem → vm_used mem ≤ vm_total mem)
  ∧ (∀ path du, os_disk_usage os path = Ok du → du_used du ≤ du_total du).

(** The events of an iteration of the sampling loop that emits nothing. *)
Definition logged (e : exn) : list event :=
  [EvPrint ("Monitoring error: " +:+ exc_msg e)].

(** The snapshots a trace emits, in order. *)
Definition emitted (trace : list event) : list snapshot :=
  omap (λ ev, match ev with EvEmit d => Some d | _ => None end) trace.

(** The time a trace sleeps, in milliseconds. *)
Definition slept (trace : list event) : Z :=
  foldr (λ ev acc, match ev with EvSleep ms => ms + acc | _ => acc end) 0 trace.

(** The texts a trace prints, in order. *)
Definition printed (trace : list event) : list string :=
  omap (λ ev, match ev with EvPrint text => Some text | _ => None end) trace.

(** What every slot of the window keeps: the colouring is the one of
    the pin and of the rows as they are, and the table has at most 100
    rows. *)
Definition coloured (w : SystemDashboard.window) : Prop :=
  SystemDashboard.highlighted w
  = SystemDashboard._highlight_pinned_process (SystemDashboard.state w)
  ∧ (length (SystemDashboard.process_table (SystemDashboard.state w))
     ≤ 100)%nat.

(** Whether a character occurs in a string. *)
Fixpoint has_char (c : ascii) (s : string) : bool :=
  match s with
  | EmptyString => false
  | String c' s' => Ascii.eqb c' c || has_char c s'
  end.

(** The value of a result, when there is one. *)
Definition ok_value {A} (r : result A) : option A :=
  match r with Ok a => Some a | Raise _ => None end.

(** ** Sample readings *)

Module Samples.

Definition procs_sample : list pinfo :=
  [ {| info_pid := 1; info_name := Some "init";
       info_cpu_percent := Some 0%Q;
       info_memory_info := Some {| pmem_rss := 4096 |} |};
    {| info_pid := 7; info_name := Some "";
       info_cpu_percent := Some 3%Q;
       info_memory_info := Some {| pmem_rss := 0 |} |};
    {| info_pid := 9; info_name := None;
       info_cpu_percent := None;
       info_memory_info := None |};
    {| info_pid := 17; info_name := Some "sshd";
       info_cpu_percent := Some (25 # 10)%Q;
       info_memory_info := Some {| pmem_rss := 8192 |} |};
    {| info_pid := 42; info_name := Some "worker";
       info_cpu_percent := Some (125 # 10)%Q;
       info_memory_info := Some {| pmem_rss := 65536 |} |};
    {| info_pid := 43; info_name := Some "worker";
       info_cpu_percent := Some (25 # 10)%Q;
       info_memory_info := Some {| pmem_rss := 65536 |} |} ].

(** A process with a name whose memory information cannot be read. *)
Definition procs_denied : list pinfo :=
  [ {| info_pid := 1; info_name := Some "launchd";
       info_cpu_percent := None;
       info_memory_info := None |};
    {| info_pid := 501; info_name := Some "worker";
       info_cpu_percent := Some (125 # 10)%Q;
       info_memory_info := Some {| pmem_rss := 65536 |} |} ].


Definition mem_sample : svmem :=
  {| vm_total := 8000; vm_used := 2000; vm_percent := 25 |}.

Definition disk_usage_sample (path : string) : result sdiskusage :=
  Ok {| du_total := 500; du_used := 100; du_percent := 20 |}.

(** The mount point /mnt/secure cannot be read. *)
Definition disk_usage_denied (path : string) : result sdiskusage :=
  if String.eqb path "/mnt/secure"
  then Raise (Exc "[Errno 13] Permission denied: '/mnt/secure'")
  else disk_usage_sample path.

Definition os_with (mem : svmem) (usage : string → result sdiskusage)
    (procs : list pinfo) : os_readings :=
  {| os_cpu_freq := Ok (Some 2400%Q);
     os_cpu_count := λ logical, Ok (Some (if logical then 8 else 4));
     os_cpu_percent := Ok 10%Q;
     os_cpu_model_body := Ok "Example CPU";
     os_cpu_temp_body := Ok (Some 45000);
     os_getGPUs := Ok [];
     os_virtual_memory := Ok mem;
     os_disk_partitions :=
       Ok [ {| part_device := "/dev/sda1"; part_mountpoint := "/" |};
            {| part_device := "/dev/sdb1"; part_mountpoint := "/mnt/secure" |};
            {| part_device := "none"; part_mountpoint := "" |} ];
     os_disk_usage := usage;
     os_process_iter := Ok procs;
     os_net_io_counters := Ok {| io_bytes_sent := 700; io_bytes_recv := 900 |};
     os_net_if_addrs :=
       Ok {[ "lo" := [ {| nic_address := "127.0.0.1" |} ];
             "eth0" := [ {| nic_address := "10.0.0.2" |} ] ]};
     os_net_if_stats := Ok {[ "lo" := {| nic_isup := true |} ]} |}.

(** Every call answers. *)
Definition os_sample : os_readings :=
  os_with mem_sample disk_usage_sample procs_sample.

(** Every call answers but [disk_usage] of one mount point. *)
Definition os_disk_denied : os_readings :=
  os_with mem_sample disk_usage_denied procs_sample.

(** Every call answers; one process hides its memory information. *)
Definition os_procs_denied : os_readings :=
  os_with mem_sample disk_usage_sample procs_denied.

(** The first iteration fails, the later ones do not. *)
Definition os_stream (k : nat) : os_readings :=
  match k with
  | O => os_disk_denied
  | S _ => os_sample
  end.

(** The sample readings with another outcome of the model reader. *)
Definition os_model (body : result string) : os_readings :=
  {| os_cpu_freq := os_cpu_freq os_sample;
     os_cpu_count := os_cpu_count os_sample;
     os_cpu_percent := os_cpu_percent os_sample;
     os_cpu_model_body := body;
     os_cpu_temp_body := os_cpu_temp_body os_sample;
     os_getGPUs := os_getGPUs os_sample;
     os_virtual_memory := os_virtual_memory os_sample;
     os_disk_partitions := os_disk_partitions os_sample;
     os_disk_usage := os_disk_usage os_sample;
     os_process_iter := os_process_iter os_sample;
     os_net_io_counters := os_net_io_counters os_sample;
     os_net_if_addrs := os_net_if_addrs os_sample;
     os_net_if_stats := os_net_if_stats os_sample |}.


(** Stand-ins for [str.strip] and [str.replace] that change nothing. *)
Definition strip_id (s : string) : string := s.
Definition replace_id (old new s : string) : string := s.

(** Every iteration fails. *)
Definition os_stream_denied (k : nat) : os_readings := os_disk_denied.

(** A process list, by descending load. *)
Definition rows_sample : list proc_row :=
  [ (17, Some "sshd", (300 # 10)%Q, 8192);
    (42, Some "worker", (125 # 10)%Q, 65536);
    (1, Some "init", 0%Q, 4096) ].

(** The table after pid 42 was pinned. *)
Definition table_sample : list proc_row :=
  [ (42, Some "worker", (130 # 10)%Q, 70000);
    (17, Some "sshd", (300 # 10)%Q, 8192);
    (1, Some "init", 0%Q, 4096) ].

(** A live query that knows the pids 42 and 99 only. *)
Definition Process_sample (pid : Z) : result (string * Q * Z) :=
  if pid =? 42 then Ok ("worker", (130 # 10)%Q, 70000)
  else if pid =? 99 then Ok ("idle", 0%Q, 1000)
  else Raise (Exc ("process no longer exists (pid=" +:+ pretty pid +:+ ")")).

(** A live query for which every process is gone. *)
Definition Process_gone (pid : Z) : result (string * Q * Z) :=
  Raise (Exc ("process no longer exists (pid=" +:+ pretty pid +:+ ")")).

Definition terminate_ok (pid : Z) : result unit := Ok ().

Definition terminate_denied (pid : Z) : result unit :=
  Raise (Exc ("(pid=" +:+ pretty pid +:+ ")")).

(** An update with nothing pinned, a click on the second row (pid 42), a
    declined Ctrl+Z, the button on the first row (pid 17), and an update
    in which pid 42 answers. *)
Definition signals_sample : list SystemDashboard.signal :=
  [ SystemDashboard.data_updated Process_sample rows_sample;
    SystemDashboard.cellClicked 1;
    SystemDashboard.activated terminate_ok false;
    SystemDashboard.clicked terminate_ok 0;
    SystemDashboard.data_updated Process_sample rows_sample ].

End Samples.

(** * Properties *)

(** ** The stable descending sort *)

Section key_sort_facts.
Context {A : Type} (key : A → Q).

Lemma insert_desc_Permutation (x : A) (l : list A) :
  insert_desc key x l ≡ₚ x :: l.
Proof.
  induction l as [|y l IH]; simpl; [done|].
  destruct (Qle_bool (key y) (key x)); [done|].
  rewrite IH. apply Permutation_swap.
Qed.

Lemma sorted_reverse_Permutation (l : list A) :
  sorted_reverse key l ≡ₚ l.
Proof.
  induction l as [|x l IH]; simpl; [done|].
  rewrite insert_desc_Permutation. by rewrite IH.
Qed.

Lemma sorted_reverse_length (l : list A) :
  length (sorted_reverse key l) = length l.
Proof. apply Permutation_length, sorted_reverse_Permutation. Qed.

Lemma insert_desc_sorted (x : A) (l : list A) :
  StronglySorted (key_desc key) l → StronglySorted (key_desc key) (insert_desc key x l).
Proof.
  induction 1 as [|y l Hl IH Hy]; simpl.
  - repeat constructor.
  - destruct (Qle_bool (key y) (key x)) eqn:E.
    + apply Qle_bool_iff in E.
      constructor; [by constructor|].
      constructor; [done|].
      eapply Forall_impl; [exact Hy|].
      unfold key_desc. intros z Hz. by eapply Qle_trans.
    + assert (key x < key y)%Q as Hlt.
      { apply Qnot_le_lt. intros H%Qle_bool_iff. congruence. }
      constructor; [done|].
      rewrite insert_desc_Permutation.
      constructor; [|done]. by apply Qlt_le_weak.
Qed.

Lemma sorted_reverse_sorted (l : list A) :
  StronglySorted (key_desc key) (sorted_reverse key l).
Proof.
  induction l; simpl; [constructor|]. by apply insert_desc_sorted.
Qed.

(** Stability: among the elements of one key the order of the input is
    kept. *)
Lemma insert_desc_stable (c : Q) (x : A) (l : list A) :
  filter (λ a, key a == c)%Q (insert_desc key x l)
  = filter (λ a, key a == c)%Q (x :: l).
Proof.
  induction l as [|y l IH]; simpl; [done|].
  destruct (Qle_bool (key y) (key x)) eqn:E; [done|].
  assert (key x < key y)%Q as Hlt.
  { apply Qnot_le_lt. intros H%Qle_bool_iff. congruence. }
  rewrite (filter_cons _ y), IH, !filter_cons.
  destruct (decide (key y == c)%Q) as [Hy|Hy],
           (decide (key x == c)%Q) as [Hx|Hx]; try done.
  rewrite Hy, Hx in Hlt. by apply Qlt_irrefl in Hlt.
Qed.

Lemma sorted_reverse_stable (c : Q) (l : list A) :
  filter (λ a, key a == c)%Q (sorted_reverse key l)
  = filter (λ a, key a == c)%Q l.
Proof.
  induction l as [|x l IH]; simpl; [done|].
  rewrite insert_desc_stable, !filter_cons, IH. done.
Qed.

(** Ties and a second key.  When the input is in strictly ascending order
    of [rank], equal keys come out in ascending order of [rank]. *)
Context (rank : A → Z).

Lemma insert_desc_rank (x : A) (l : list A) :
  Forall (rank_asc rank x) l →
  StronglySorted (key_desc_rank_asc key rank) l →
  StronglySorted (key_desc_rank_asc key rank) (insert_desc key x l).
Proof.
  intros Hx Hl. induction Hl as [|y l Hl IH Hy]; simpl.
  - repeat constructor.
  - apply Forall_cons in Hx as [Hxy Hx].
    destruct (Qle_bool (key y) (key x)) eqn:E.
    + apply Qle_bool_iff in E.
      constructor; [by constructor|].
      apply Forall_cons. split.
      * destruct (Qle_lt_or_eq _ _ E) as [?|Heq]; [by left|].
        right. split; [by symmetry|done].
      * apply Forall_forall. intros z Hz.
        rewrite Forall_forall in Hx, Hy.
        specialize (Hx z Hz). specialize (Hy z Hz).
        unfold key_desc_rank_asc, rank_asc in *.
        destruct (Qlt_le_dec (key z) (key x)) as [?|Hzx]; [by left|].
        right. split; [|done].
        apply Qle_antisym; [exact Hzx|].
        destruct Hy as [Hy|[Hy _]]; [|rewrite <- Hy; exact E].
        eapply Qle_trans; [|exact E]. by apply Qlt_le_weak.
    + assert (key x < key y)%Q as Hlt.
      { apply Qnot_le_lt. intros H%Qle_bool_iff. congruence. }
      constructor; [by apply IH|].
      rewrite insert_desc_Permutation.
      constructor; [by left|done].
Qed.

Lemma sorted_reverse_rank (l : list A) :
  StronglySorted (rank_asc rank) l →
  StronglySorted (key_desc_rank_asc key rank) (sorted_reverse key l).
Proof.
  induction 1 as [|x l Hl IH Hx]; simpl; [constructor|].
  apply insert_desc_rank; [|done].
  by rewrite sorted_reverse_Permutation.
Qed.

End key_sort_facts.

(** ** The sampling loop *)

Section sampling_loop.
Import SystemMonitor.

Lemma iteration_eq (os : os_readings) :
  iteration os
  = match data os with
    | Ok d => ([EvEmit d; EvSleep 3500], Ok ())
    | Raise e => (logged e, Ok ())
    end.
Proof. unfold iteration. by destruct (data os). Qed.

Lemma iteration_returns (os : os_readings) : (iteration os).2 = Ok ().
Proof. rewrite iteration_eq. by destruct (data os). Qed.

(** A loop whose body never raises runs every one of its iterations. *)
Lemma while_true_total (fuel : nat) (body : nat → stmt unit) (k : nat) :
  (∀ i, (body i).2 = Ok ()) →
  while_true fuel body k
  = (concat ((λ i, (body i).1) <$> seq k fuel), Ok ()).
Proof.
  intros Hbody. revert k.
  induction fuel as [|fuel IH]; intros k; simpl; [done|].
  specialize (Hbody k) as Hk. specialize (IH (S k)).
  unfold mbind, stmt_bind. destruct (body k) as [t [[]|e]]; simpl in *.
  - by rewrite IH.
  - discriminate.
Qed.

Lemma run_eq (fuel : nat) (os : nat → os_readings) :
  run fuel os
  = (concat ((λ k, (iteration (os k)).1) <$> seq 0 fuel), Ok ()).
Proof.
  unfold run.
  apply (while_true_total fuel (λ k, iteration (os k)) 0%nat).
  intros i. apply iteration_returns.
Qed.

(** The dictionary is built when each of the six collectors returns, and
    from what they return; otherwise building it raises what the first
    failing collector raises. *)
Lemma data_ok (os : os_readings) c g m d p n :
  _get_cpu_data os = Ok c → _get_gpu_data os = Ok g →
  _get_memory_data os = Ok m → _get_disk_data os = Ok d →
  _get_process_data os = Ok p → _get_network_data os = Ok n →
  data os = Ok {| cpu := c; gpu := g; memory := m; disk := d;
                  processes := p; network := n |}.
Proof. unfold data. by intros -> -> -> -> -> ->. Qed.

Lemma data_ok_inv (os : os_readings) (s : snapshot) :
  data os = Ok s →
  _get_cpu_data os = Ok (cpu s) ∧ _get_gpu_data os = Ok (gpu s)
  ∧ _get_memory_data os = Ok (memory s) ∧ _get_disk_data os = Ok (disk s)
  ∧ _get_process_data os = Ok (processes s)
  ∧ _get_network_data os = Ok (network s).
Proof.
  unfold data.
  destruct (_get_cpu_data os); [|discriminate].
  destruct (_get_gpu_data os); [|discriminate].
  destruct (_get_memory_data os); [|discriminate].
  destruct (_get_disk_data os); [|discriminate].
  destruct (_get_process_data os); [|discriminate].
  destruct (_get_network_data os); [|discriminate].
  simpl. by intros [= <-].
Qed.

Lemma data_raise (os : os_readings) :
  is_ok (_get_cpu_data os) && is_ok (_get_gpu_data os)
  && is_ok (_get_memory_data os) && is_ok (_get_disk_data os)
  && is_ok (_get_process_data os) && is_ok (_get_network_data os) = false →
  ∃ e, data os = Raise e
       ∧ (_get_cpu_data os = Raise e ∨ _get_gpu_data os = Raise e
          ∨ _get_memory_data os = Raise e ∨ _get_disk_data os = Raise e
          ∨ _get_process_data os = Raise e ∨ _get_network_data os = Raise e).
Proof.
  unfold data.
  destruct (_get_cpu_data os); [|naive_solver].
  destruct (_get_gpu_data os); [|naive_solver].
  destruct (_get_memory_data os); [|naive_solver].
  destruct (_get_disk_data os); [|naive_solver].
  destruct (_get_process_data os); [|naive_solver].
  destruct (_get_network_data os); [|naive_solver].
  simpl. discriminate.
Qed.

End sampling_loop.

(** C1, as the specification states it, fails: when [disk_usage] is
    denied for one mount point while every other collector returns, the
    iteration emits no snapshot at all; it prints the error. *)
Lemma iteration_disk_denied_emits_nothing :
  is_ok (SystemMonitor._get_cpu_data Samples.os_disk_denied) = true
  ∧ is_ok (SystemMonitor._get_gpu_data Samples.os_disk_denied) = true
  ∧ is_ok (SystemMonitor._get_memory_data Samples.os_disk_denied) = true
  ∧ is_ok (SystemMonitor._get_disk_data Samples.os_disk_denied) = false
  ∧ is_ok (SystemMonitor._get_process_data Samples.os_disk_denied) = true
  ∧ is_ok (SystemMonitor._get_network_data Samples.os_disk_denied) = true
  ∧ SystemMonitor.iteration Samples.os_disk_denied
    = ([EvPrint
          "Monitoring error: [Errno 13] Permission denied: '/mnt/secure'"],
       Ok ()).
Proof. repeat split; reflexivity. Qed.

(** C1, amended: a cycle is all or nothing.  When each of the six
    collectors returns, the iteration emits one snapshot made of the six
    values and sleeps; when any of them raises, the iteration emits no
    snapshot and prints the error that a collector raised.
    Only the two readers inside the CPU collector replace a failure of
    their own by a sentinel: "Unknown" for the model, "N/A" for the
    temperature. *)
Theorem iteration_all_or_nothing (os : os_readings) :
  (∀ c g m d p n,
     SystemMonitor._get_cpu_data os = Ok c →
     SystemMonitor._get_gpu_data os = Ok g →
     SystemMonitor._get_memory_data os = Ok m →
     SystemMonitor._get_disk_data os = Ok d →
     SystemMonitor._get_process_data os = Ok p →
     SystemMonitor._get_network_data os = Ok n →
     SystemMonitor.iteration os
     = ([EvEmit {| cpu := c; gpu := g; memory := m; disk := d;
                   processes := p; network := n |};
         EvSleep 3500], Ok ()))
  ∧ (is_ok (SystemMonitor._get_cpu_data os)
     && is_ok (SystemMonitor._get_gpu_data os)
     && is_ok (SystemMonitor._get_memory_data os)
     && is_ok (SystemMonitor._get_disk_data os)
     && is_ok (SystemMonitor._get_process_data os)
     && is_ok (SystemMonitor._get_network_data os) = false →
     ∃ e, (SystemMonitor._get_cpu_data os = Raise e
           ∨ SystemMonitor._get_gpu_data os = Raise e
           ∨ SystemMonitor._get_memory_data os = Raise e
           ∨ SystemMonitor._get_disk_data os = Raise e
           ∨ SystemMonitor._get_process_data os = Raise e
           ∨ SystemMonitor._get_network_data os = Raise e)
          ∧ SystemMonitor.iteration os = (logged e, Ok ()))
  ∧ (∀ e, os_cpu_model_body os = Raise e →
          SystemMonitor._get_cpu_model os = "Unknown")
  ∧ (∀ e, os_cpu_temp_body os = Raise e →
          SystemMonitor._get_cpu_temp os = TempNA).
Proof.
  split; [|split; [|split]].
  - intros c g m d p n Hc Hg Hm Hd Hp Hn.
    rewrite iteration_eq.
    by rewrite (data_ok os c g m d p n Hc Hg Hm Hd Hp Hn).
  - intros (e & He & Hwho)%data_raise.
    exists e. split; [exact Hwho|].
    rewrite iteration_eq. by rewrite He.
  - intros e He. unfold SystemMonitor._get_cpu_model. by rewrite He.
  - intros e He. unfold SystemMonitor._get_cpu_temp. by rewrite He.
Qed.

(** The sample readings give a snapshot; with one mount point denied they
    give a printed error. *)
Lemma iteration_all_or_nothing_sample :
  (∃ d, SystemMonitor.iteration Samples.os_sample
        = ([EvEmit d; EvSleep 3500], Ok ()))
  ∧ (∃ e, SystemMonitor.iteration Samples.os_disk_denied = (logged e, Ok ())).
Proof.
  split.
  - eexists.
    apply (proj1 (iteration_all_or_nothing Samples.os_sample));
      reflexivity.
  - destruct (proj1 (proj2 (iteration_all_or_nothing Samples.os_disk_denied)))
      as (e & _ & He); [reflexivity|].
    exists e. exact He.
Defined.

(** C7: whatever a cycle raises is caught and printed as a diagnostic,
    nothing escapes an iteration, and the loop goes on: after any number
    of iterations, failed or not, the loop is still running and the next
    iteration is executed. *)
Theorem run_survives_failed_cycles (fuel : nat) (os : nat → os_readings) :
  SystemMonitor.run fuel os
  = (concat ((λ k, (SystemMonitor.iteration (os k)).1) <$> seq 0 fuel), Ok ())
  ∧ SystemMonitor.run (S fuel) os
    = ((SystemMonitor.run fuel os).1
         ++ (SystemMonitor.iteration (os fuel)).1, Ok ())
  ∧ (∀ k, (SystemMonitor.iteration (os k)).2 = Ok ())
  ∧ (∀ k e, SystemMonitor.data (os k) = Raise e →
            (SystemMonitor.iteration (os k)).1 = logged e)
  ∧ (∀ k d, SystemMonitor.data (os k) = Ok d →
            (SystemMonitor.iteration (os k)).1 = [EvEmit d; EvSleep 3500]).
Proof.
  split; [apply run_eq|].
  split.
  { rewrite !run_eq. simpl fst. f_equal.
    rewrite seq_S, fmap_app, concat_app. simpl.
    by rewrite app_nil_r. }
  split; [intros k; apply iteration_returns|].
  split; intros k x Hx; rewrite iteration_eq, Hx; done.
Qed.

(** The first iteration fails, the second one emits. *)
Lemma run_survives_failed_cycles_sample :
  SystemMonitor.data (Samples.os_stream 0)
  = Raise (Exc "[Errno 13] Permission denied: '/mnt/secure'")
  ∧ (SystemMonitor.iteration (Samples.os_stream 0)).1
    = logged (Exc "[Errno 13] Permission denied: '/mnt/secure'")
  ∧ SystemMonitor.run 2 Samples.os_stream
    = (logged (Exc "[Errno 13] Permission denied: '/mnt/secure'")
         ++ (SystemMonitor.iteration Samples.os_sample).1, Ok ()).
Proof.
  destruct (run_survives_failed_cycles 1 Samples.os_stream)
    as (_ & Hnext & _ & Hfail & _).
  split; [reflexivity|].
  split; [apply (Hfail 0%nat); reflexivity|].
  rewrite Hnext. reflexivity.
Defined.

(** ** Sorted lists, sublists and images *)

Lemma StronglySorted_sublist {A} (R : relation A) (l1 l2 : list A) :
  l1 `sublist_of` l2 → StronglySorted R l2 → StronglySorted R l1.
Proof.
  induction 1 as [|x l1 l2 Hsub IH|x l1 l2 Hsub IH]; intros Hs.
  - constructor.
  - apply StronglySorted_inv in Hs as [Hs Hx].
    constructor; [by apply IH|].
    eapply Forall_forall. intros y Hy.
    rewrite Forall_forall in Hx. apply Hx.
    by eapply sublist_subseteq.
  - apply StronglySorted_inv in Hs as [Hs _]. by apply IH.
Qed.

Lemma StronglySorted_fmap {A B} (R : relation B) (f : A → B) (l : list A) :
  StronglySorted (λ a b, R (f a) (f b)) l → StronglySorted R (f <$> l).
Proof.
  induction 1 as [|x l Hl IH Hx]; simpl; constructor; [done|].
  by apply Forall_fmap.
Qed.

(** ** The process list *)

Section process_data.
Import SystemMonitor.

Lemma StronglySorted_omap {A B} (R : relation B) (g : A → option B)
    (l : list A) :
  StronglySorted (λ a b, ∀ x y, g a = Some x → g b = Some y → R x y) l →
  StronglySorted R (omap g l).
Proof.
  induction 1 as [|a l Hl IH Ha]; simpl; [constructor|].
  destruct (g a) as [x|] eqn:Hx; [|done].
  constructor; [done|].
  apply Forall_forall. intros y (b & Hb & Hy)%list_elem_of_omap.
  rewrite Forall_forall in Ha. by apply (Ha b Hb).
Qed.

Lemma StronglySorted_impl_on {A} (R R' : relation A) (P : A → Prop)
    (l : list A) :
  Forall P l → (∀ a b, P a → P b → R a b → R' a b) →
  StronglySorted R l → StronglySorted R' l.
Proof.
  intros HP Himpl Hs. induction Hs as [|a l Hl IH Ha]; [constructor|].
  apply Forall_cons in HP as [Hpa HP].
  constructor; [by apply IH|].
  rewrite Forall_forall in Ha, HP. apply Forall_forall.
  intros b Hb. apply Himpl; auto.
Qed.

Lemma rank_asc_NoDup {A} (rank : A → Z) (l : list A) :
  StronglySorted (rank_asc rank) l → NoDup (rank <$> l).
Proof.
  induction 1 as [|x l Hl IH Hx]; simpl; constructor; [|done].
  intros (y & Hxy & Hy)%list_elem_of_fmap.
  rewrite Forall_forall in Hx. specialize (Hx y Hy).
  unfold rank_asc in Hx. lia.
Qed.

(** What the comprehension gives when it gives a list: every process
    has a memory information, and the rows are the tuples of the
    processes, one for one. *)
Lemma comprehension_ok (l : list pinfo) (rows : list sampled_row) :
  rmap (λ p,
          match info_memory_info p with
          | Some mem =>
              Ok (info_pid p, info_name p, info_cpu_percent p, pmem_rss mem)
          | None => Raise (Exc "'NoneType' object has no attribute 'rss'")
          end) l = Ok rows →
  Forall (λ p, is_Some (info_memory_info p)) l
  ∧ rows = omap (λ p, tuple_of p <$> info_memory_info p) l
  ∧ Forall2 (λ p r, ∃ mem, info_memory_info p = Some mem
                           ∧ r = tuple_of p mem) l rows.
Proof.
  revert rows. induction l as [|p l IH]; intros rows; simpl.
  - intros [= <-]. repeat split; constructor.
  - destruct (info_memory_info p) as [mem|] eqn:Hmem; [|discriminate].
    simpl. destruct (rmap _ l) as [rows'|e]; [|discriminate].
    simpl. intros [= <-].
    destruct (IH rows' eq_refl) as (Hall & -> & Htuples).
    split; [by constructor|]. split; [done|].
    constructor; [by exists mem|done].
Qed.

Lemma process_data_inv (os : os_readings) (rows : list sampled_row) :
  _get_process_data os = Ok rows →
  ∃ procs sorted,
    os_process_iter os = Ok procs
    ∧ Forall (λ p, is_Some (info_memory_info p)) (named procs)
    ∧ Forall2 (λ p r, ∃ mem, info_memory_info p = Some mem
                             ∧ r = tuple_of p mem)
              (named procs) (named_rows procs)
    ∧ sorted_cpu_reverse (named_rows procs) = Ok sorted
    ∧ rows = take 100 sorted.
Proof.
  unfold _get_process_data.
  destruct (os_process_iter os) as [procs|e]; [|discriminate]. simpl.
  fold (named procs).
  destruct (rmap _ (named procs)) as [rows0|e] eqn:Hrows0; [|discriminate].
  apply comprehension_ok in Hrows0 as (Hall & -> & Htuples). simpl.
  fold (named_rows procs) in *.
  destruct (sorted_cpu_reverse (named_rows procs)) as [sorted|e] eqn:Hsorted;
    [|discriminate].
  simpl. intros [= <-]. by exists procs, sorted.
Qed.

Lemma sorted_cpu_reverse_two (a b : sampled_row) (rows : list sampled_row) :
  sorted_cpu_reverse (a :: b :: rows)
  = if forallb (λ x, bool_decide (is_Some (sampled_cpu x))) (a :: b :: rows)
    then Ok (sorted_reverse (λ x, default 0%Q (sampled_cpu x))
               (a :: b :: rows))
    else Raise (Exc ("'<' not supported between instances of "
                     +:+ "'NoneType' and 'float'")).
Proof. reflexivity. Qed.

Lemma sorted_cpu_reverse_Permutation (rows sorted : list sampled_row) :
  sorted_cpu_reverse rows = Ok sorted → sorted ≡ₚ rows.
Proof.
  destruct rows as [|a [|b rows]]; [by intros [= <-]..|].
  rewrite sorted_cpu_reverse_two. set (l := a :: b :: rows).
  destruct (forallb _ l); [|discriminate]. intros Heq.
  assert (sorted = sorted_reverse (λ x, default 0%Q (sampled_cpu x)) l)
    as -> by congruence.
  apply sorted_reverse_Permutation.
Qed.

Lemma sorted_cpu_reverse_length (rows sorted : list sampled_row) :
  sorted_cpu_reverse rows = Ok sorted → length sorted = length rows.
Proof. by intros ->%sorted_cpu_reverse_Permutation. Qed.

(** Rows in ascending order of pid come out by descending cpu percent,
    equal ones by ascending pid. *)
Lemma sorted_cpu_reverse_rank (rows sorted : list sampled_row) :
  sorted_cpu_reverse rows = Ok sorted →
  StronglySorted (rank_asc sampled_pid) rows →
  cpu_desc_pid_asc sorted.
Proof.
  unfold cpu_desc_pid_asc.
  destruct rows as [|a [|b rows]].
  - intros [= <-] _. constructor.
  - intros [= <-] _. repeat constructor.
  - rewrite sorted_cpu_reverse_two. set (l := a :: b :: rows).
    destruct (forallb _ l) eqn:Hall; [|discriminate]. intros Heq Hrank.
    assert (sorted = sorted_reverse (λ x, default 0%Q (sampled_cpu x)) l)
      as -> by congruence.
    clear Heq. apply Is_true_true, forallb_True in Hall.
    apply (sorted_reverse_rank (λ x, default 0%Q (sampled_cpu x))) in Hrank.
    eapply (StronglySorted_impl_on _ _ (λ r, is_Some (sampled_cpu r)));
      [| |exact Hrank].
    + rewrite sorted_reverse_Permutation.
      eapply Forall_impl; [exact Hall|].
      intros r Hr. by apply bool_decide_unpack in Hr.
    + intros r1 r2 [x Hx] [y Hy] Hbefore. exists x, y.
      unfold key_desc_rank_asc in Hbefore. rewrite Hx, Hy in Hbefore.
      done.
Qed.

Lemma named_rows_rank (procs : list pinfo) :
  pid_order procs →
  StronglySorted (rank_asc sampled_pid) (named_rows procs).
Proof.
  intros Hs. unfold named_rows. apply StronglySorted_omap.
  eapply StronglySorted_sublist; [apply sublist_filter|].
  eapply StronglySorted_impl_on with (P := λ _, True); [| |exact Hs].
  - by apply Forall_forall.
  - intros p1 p2 _ _ Hlt r1 r2 Hr1 Hr2.
    destruct (info_memory_info p1), (info_memory_info p2);
      simplify_eq/=. exact Hlt.
Qed.

End process_data.

(** C2: for every cycle, with the processes enumerated as psutil
    documents it (by ascending pid, every pid once), the process list of
    the snapshot is sorted by cpu percent descending with ties broken by
    pid ascending, has at most 100 entries that are the first ones of the
    sorted list of all rows, so the cut comes after the sort, and has
    every pid once. *)
Theorem process_data_sorted (os : os_readings) (procs : list pinfo)
    (rows : list sampled_row) :
  os_process_iter os = Ok procs →
  pid_order procs →
  SystemMonitor._get_process_data os = Ok rows →
  cpu_desc_pid_asc rows
  ∧ (length rows ≤ 100)%nat
  ∧ NoDup (sampled_pid <$> rows)
  ∧ ∃ dropped : list sampled_row,
      rows ++ dropped ≡ₚ named_rows procs
      ∧ cpu_desc_pid_asc (rows ++ dropped)
      ∧ (dropped ≠ [] → length rows = 100%nat).
Proof.
  intros Hiter Horder Hrows.
  apply process_data_inv in Hrows
    as (procs' & sorted & Hiter' & _ & _ & Hsorted & ->).
  assert (procs' = procs) as -> by congruence.
  apply named_rows_rank in Horder.
  pose proof (sorted_cpu_reverse_Permutation _ _ Hsorted) as Hperm.
  pose proof (sorted_cpu_reverse_rank _ _ Hsorted Horder) as Hdesc.
  split.
  { eapply StronglySorted_sublist; [apply sublist_take|exact Hdesc]. }
  split; [rewrite length_take; lia|].
  split.
  { eapply sublist_NoDup; [|apply fmap_sublist, sublist_take].
    rewrite Hperm. by apply rank_asc_NoDup. }
  exists (drop 100 sorted). rewrite take_drop.
  split; [exact Hperm|]. split; [exact Hdesc|].
  intros Hdrop. rewrite length_take.
  destruct (decide (length sorted ≤ 100)%nat) as [Hle|Hgt]; [|lia].
  by rewrite drop_ge in Hdrop.
Qed.

(** The sample enumeration is in ascending order of pid. *)
Lemma process_data_sorted_sample :
  ∃ rows : list sampled_row,
    SystemMonitor._get_process_data Samples.os_sample = Ok rows
    ∧ cpu_desc_pid_asc rows
    ∧ (length rows ≤ 100)%nat
    ∧ NoDup (sampled_pid <$> rows).
Proof.
  destruct (SystemMonitor._get_process_data Samples.os_sample)
    as [rows|e] eqn:Hrows; [|discriminate Hrows].
  exists rows. split; [reflexivity|].
  destruct (process_data_sorted Samples.os_sample Samples.procs_sample rows
              eq_refl)
    as (Hsorted & Hlen & Hnodup & _); [|exact Hrows|done].
  unfold pid_order, Samples.procs_sample.
  repeat (constructor; [|repeat constructor; unfold rank_asc; simpl; lia]).
  constructor.
Defined.

(** C10: every row of the process list of a snapshot has a name that is
    neither missing nor empty, and is the tuple of an enumerated process
    with such a name: the adapter leaves the others out. *)
Theorem process_data_named (os : os_readings) (rows : list sampled_row) :
  SystemMonitor._get_process_data os = Ok rows →
  Forall (λ r, ∃ s, sampled_name r = Some s ∧ s ≠ "") rows
  ∧ ∃ procs : list pinfo,
      os_process_iter os = Ok procs
      ∧ Forall (λ r, ∃ p mem, p ∈ procs
                              ∧ name_truthy (info_name p)
                              ∧ info_memory_info p = Some mem
                              ∧ r = tuple_of p mem) rows.
Proof.
  intros (procs & sorted & Hiter & _ & _ & Hsorted & ->)%process_data_inv.
  assert (∀ r, r ∈ take 100 sorted →
               ∃ p mem, p ∈ procs ∧ name_truthy (info_name p)
                        ∧ info_memory_info p = Some mem
                        ∧ r = tuple_of p mem) as Hfrom.
  { intros r Hr%subseteq_take.
    rewrite (sorted_cpu_reverse_Permutation _ _ Hsorted) in Hr.
    unfold named_rows, named in Hr.
    apply list_elem_of_omap in Hr
      as (p & [Hp Hin]%list_elem_of_filter & Hr).
    destruct (info_memory_info p) as [mem|] eqn:Hmem; [|done].
    injection Hr as <-. by exists p, mem. }
  split.
  - apply Forall_forall. intros r (p & mem & _ & Hp & _ & ->)%Hfrom.
    unfold tuple_of, sampled_name. simpl.
    destruct (info_name p) as [[|c s]|]; simpl in Hp; try done.
    by eexists.
  - exists procs. split; [done|]. by apply Forall_forall.
Qed.

(** The sample enumeration has a process without a name, whose other
    attributes cannot be read either, and one with an empty name: pids 9
    and 7 are left out. *)
Lemma process_data_named_sample :
  ∃ rows : list sampled_row,
    SystemMonitor._get_process_data Samples.os_sample = Ok rows
    ∧ Forall (λ r, ∃ s, sampled_name r = Some s ∧ s ≠ "") rows
    ∧ (sampled_pid <$> rows) = [42; 17; 43; 1].
Proof.
  eexists. split; [reflexivity|]. split; [|reflexivity].
  apply (proj1 (process_data_named Samples.os_sample _ eq_refl)).
Defined.

(** ** Memory, disks and network *)

Section pass_through.
Import SystemMonitor.

Lemma rmap_Forall2 {A B} (f : A → result B) (l : list A) (bs : list B) :
  rmap f l = Ok bs → Forall2 (λ a b, f a = Ok b) l bs.
Proof.
  revert bs. induction l as [|a l IH]; simpl; intros bs.
  - intros [= <-]. constructor.
  - destruct (f a) as [b|e] eqn:Hb; [|discriminate]. simpl.
    destruct (rmap f l) as [bs'|e]; [|discriminate]. simpl.
    intros [= <-]. constructor; [done|]. by apply IH.
Qed.

Lemma memory_data_eq (os : os_readings) (m : memory_data) :
  _get_memory_data os = Ok m →
  ∃ mem, os_virtual_memory os = Ok mem
         ∧ md_total m = vm_total mem ∧ md_used m = vm_used mem.
Proof.
  unfold _get_memory_data.
  destruct (os_virtual_memory os) as [mem|e]; [|discriminate].
  simpl. intros [= <-]. by exists mem.
Qed.

Lemma disk_data_eq (os : os_readings) (d : list disk_data) :
  _get_disk_data os = Ok d →
  Forall (λ entry, ∃ du, os_disk_usage os (dd_mount entry) = Ok du
                         ∧ dd_total entry = du_total du
                         ∧ dd_used entry = du_used du) d.
Proof.
  unfold _get_disk_data.
  destruct (os_disk_partitions os) as [parts|e]; [|discriminate].
  simpl. intros Hd%rmap_Forall2.
  induction Hd as [|part entry ps es Hentry _ IH]; constructor; [|done].
  destruct (os_disk_usage os (part_mountpoint part)) as [du|e] eqn:Hdu;
    [|discriminate].
  simpl in Hentry. injection Hentry as <-. simpl. by exists du.
Qed.

Lemma network_data_eq (os : os_readings) (n : network_data) :
  _get_network_data os = Ok n →
  ∃ net addrs ifstats,
    os_net_io_counters os = Ok net
    ∧ os_net_if_addrs os = Ok addrs
    ∧ os_net_if_stats os = Ok ifstats
    ∧ ∀ iface,
        interfaces n !! iface
        = (λ addr_list : list snicaddr,
             {| addresses := nic_address <$> addr_list;
                stats := {| bytes_sent := io_bytes_sent net;
                            bytes_recv := io_bytes_recv net;
                            is_up := match ifstats !! iface with
                                     | Some st => nic_isup st
                                     | None => false
                                     end |} |}) <$> addrs !! iface.
Proof.
  unfold _get_network_data.
  destruct (os_net_io_counters os) as [net|e]; [|discriminate].
  destruct (os_net_if_addrs os) as [addrs|e]; [|discriminate].
  destruct (os_net_if_stats os) as [ifstats|e]; [|discriminate].
  simpl. intros [= <-]. exists net, addrs, ifstats.
  repeat split. intros iface. simpl.
  rewrite map_lookup_imap. by destruct (addrs !! iface).
Qed.

End pass_through.

(** The memory entry and the disk entries carry the total and used bytes
    that the operating system reported, unchanged. *)
Lemma snapshot_pass_through (os : os_readings) (s : snapshot) :
  SystemMonitor.data os = Ok s →
  (∃ mem, os_virtual_memory os = Ok mem
          ∧ md_total (memory s) = vm_total mem
          ∧ md_used (memory s) = vm_used mem)
  ∧ Forall (λ entry, ∃ du, os_disk_usage os (dd_mount entry) = Ok du
                           ∧ dd_total entry = du_total du
                           ∧ dd_used entry = du_used du) (disk s).
Proof.
  intros (_ & _ & Hm & Hd & _ & _)%data_ok_inv.
  apply memory_data_eq in Hm as (mem & Hmem & Htotal & Hused).
  apply disk_data_eq in Hd.
  split; [by exists mem|done].
Qed.

(** C8: for every cycle, on readings as psutil computes them (the bytes
    used within the total), the snapshot produced has memory used at
    most memory total, and every disk entry has used at most total. *)
Theorem snapshot_used_total (os : os_readings) (s : snapshot) :
  SystemMonitor.data os = Ok s →
  used_within_total os →
  md_used (memory s) ≤ md_total (memory s)
  ∧ Forall (λ entry, dd_used entry ≤ dd_total entry) (disk s).
Proof.
  intros Hs [Hmem Hdisk].
  apply snapshot_pass_through in Hs as ((mem & Hm & -> & ->) & Hd).
  split; [by apply Hmem|].
  eapply Forall_impl; [exact Hd|].
  intros entry (du & Hdu & -> & ->). by eapply Hdisk.
Qed.

(** The sample readings report no more bytes used than in total. *)
Lemma snapshot_used_total_sample :
  ∃ s, SystemMonitor.data Samples.os_sample = Ok s
       ∧ md_used (memory s) ≤ md_total (memory s)
       ∧ Forall (λ entry, dd_used entry ≤ dd_total entry) (disk s).
Proof.
  eexists. split; [reflexivity|].
  apply (snapshot_used_total Samples.os_sample _ eq_refl).
  split.
  - intros mem [= <-]. simpl. lia.
  - intros path du [= <-]. simpl. lia.
Defined.

(** C9: whenever the three network queries answer, the network entry of
    the snapshot is built; every interface in it is an interface of the
    address map and carries the two counters of the one host-wide query,
    so all entries carry the same; and an interface of the address map
    that the status map does not have is there with [is_up = false]. *)
Theorem network_data_entries (os : os_readings) (net : snetio)
    (addrs : gmap string (list snicaddr)) (ifstats : gmap string snicstats) :
  os_net_io_counters os = Ok net →
  os_net_if_addrs os = Ok addrs →
  os_net_if_stats os = Ok ifstats →
  ∃ n : network_data,
    SystemMonitor._get_network_data os = Ok n
    ∧ (∀ s, SystemMonitor.data os = Ok s → network s = n)
    ∧ (∀ iface info,
         interfaces n !! iface = Some info →
         is_Some (addrs !! iface)
         ∧ bytes_sent (stats info) = io_bytes_sent net
         ∧ bytes_recv (stats info) = io_bytes_recv net)
    ∧ (∀ iface1 iface2 info1 info2,
         interfaces n !! iface1 = Some info1 →
         interfaces n !! iface2 = Some info2 →
         bytes_sent (stats info1) = bytes_sent (stats info2)
         ∧ bytes_recv (stats info1) = bytes_recv (stats info2))
    ∧ (∀ iface,
         is_Some (addrs !! iface) → ifstats !! iface = None →
         ∃ info, interfaces n !! iface = Some info
                 ∧ is_up (stats info) = false).
Proof.
  intros Hnet Haddrs Hstats.
  destruct (SystemMonitor._get_network_data os) as [n|e] eqn:Hn; cycle 1.
  { unfold SystemMonitor._get_network_data in Hn.
    by rewrite Hnet, Haddrs, Hstats in Hn. }
  exists n. split; [done|].
  split.
  { intros s (_ & _ & _ & _ & _ & Hs)%data_ok_inv. congruence. }
  apply network_data_eq in Hn
    as (net' & addrs' & ifstats' & Hnet' & Haddrs' & Hstats' & Hn).
  assert (net' = net) as -> by congruence.
  assert (addrs' = addrs) as -> by congruence.
  assert (ifstats' = ifstats) as -> by congruence.
  assert (∀ iface info,
            interfaces n !! iface = Some info →
            is_Some (addrs !! iface)
            ∧ bytes_sent (stats info) = io_bytes_sent net
            ∧ bytes_recv (stats info) = io_bytes_recv net) as Hentry.
  { intros iface info. rewrite Hn.
    destruct (addrs !! iface) as [al|]; [|discriminate].
    simpl. intros [= <-]. by split; [eexists|]. }
  split; [exact Hentry|]. split.
  - intros iface1 iface2 info1 info2 H1 H2.
    apply Hentry in H1 as (_ & -> & ->).
    by apply Hentry in H2 as (_ & -> & ->).
  - intros iface [al Hal] Hnone. rewrite Hn, Hal, Hnone. by eexists.
Qed.

(** On the sample readings eth0 has an address and no status. *)
Lemma network_data_entries_sample :
  ∃ n info,
    SystemMonitor._get_network_data Samples.os_sample = Ok n
    ∧ interfaces n !! "eth0" = Some info
    ∧ is_up (stats info) = false
    ∧ bytes_sent (stats info) = 700
    ∧ bytes_recv (stats info) = 900.
Proof.
  destruct (network_data_entries Samples.os_sample _ _ _
              eq_refl eq_refl eq_refl)
    as (n & Hn & _ & Hentry & _ & Hdown).
  destruct (Hdown "eth0") as (info & Hinfo & Hup);
    [by eexists|reflexivity|].
  exists n, info. split; [exact Hn|]. split; [exact Hinfo|].
  split; [exact Hup|]. apply (Hentry _ _ Hinfo).
Defined.

(** ** The pinned process *)

Section pinned.
Import SystemDashboard.

Lemma reconcile_query_ok os_Process (p : Z) name cpu_percent rss processes :
  p ≠ 0 → os_Process p = Ok (name, cpu_percent, rss) →
  reconcile os_Process (Some p) processes
  = (Some p, (p, Some name, cpu_percent, rss)
               :: filter (λ proc, row_pid proc ≠ p) processes).
Proof.
  intros Hp Hq. unfold reconcile. simpl.
  destruct (Z.eqb_spec p 0) as [|_]; [done|]. simpl. by rewrite Hq.
Qed.

Lemma reconcile_query_raises os_Process (p : Z) e processes :
  p ≠ 0 → os_Process p = Raise e →
  reconcile os_Process (Some p) processes = (None, processes).
Proof.
  intros Hp Hq. unfold reconcile. simpl.
  destruct (Z.eqb_spec p 0) as [|_]; [done|]. simpl. by rewrite Hq.
Qed.

Lemma toggle_twice (s : option Z) (p : Z) :
  toggle (toggle s p) p
  = match s with
    | None => None
    | Some q => if decide (q = p) then Some q else None
    end.
Proof.
  unfold toggle. destruct s as [q|]; repeat case_decide; congruence.
Qed.

End pinned.

(** C3, as the specification states it, fails: the pin is not looked up
    in the process list.  With pid 99 pinned, absent from the list but
    answering the live query, the pin is kept and its row is put on top. *)
Lemma update_processes_absent_pin_kept :
  (99 ∉ row_pid <$> Samples.rows_sample)
  ∧ SystemDashboard._update_processes Samples.Process_sample
      {| SystemDashboard.pinned_pid := Some 99;
         SystemDashboard.process_table := [] |}
      Samples.rows_sample
    = {| SystemDashboard.pinned_pid := Some 99;
         SystemDashboard.process_table :=
           (99, Some "idle", 0%Q, 1000) :: Samples.rows_sample |}.
Proof.
  split; [compute_done|reflexivity].
Qed.

(** C3, amended: when a pid other than 0 is pinned and the live query of
    that process raises, the pin is cleared, the process list is shown
    as it came, and the step raises nothing; when the live query
    answers, the pin is kept, whether or not the list has the pid. *)
Theorem update_processes_clears_pin
    (os_Process : Z → result (string * Q * Z))
    (st : SystemDashboard.dashboard) (processes : list proc_row) (p : Z) :
  SystemDashboard.pinned_pid st = Some p → p ≠ 0 →
  (∀ e, os_Process p = Raise e →
        SystemDashboard._update_processes os_Process st processes
        = {| SystemDashboard.pinned_pid := None;
             SystemDashboard.process_table := take 100 processes |})
  ∧ (∀ x, os_Process p = Ok x →
          SystemDashboard.pinned_pid
            (SystemDashboard._update_processes os_Process st processes)
          = Some p).
Proof.
  intros Hpin Hp. unfold SystemDashboard._update_processes.
  rewrite Hpin. split.
  - intros e He. by rewrite (reconcile_query_raises _ _ e).
  - intros [[name cpu_percent] rss] Hx.
    by rewrite (reconcile_query_ok _ _ name cpu_percent rss).
Qed.

(** Pid 42 is pinned and every process is gone. *)
Lemma update_processes_clears_pin_sample :
  SystemDashboard._update_processes Samples.Process_gone
    {| SystemDashboard.pinned_pid := Some 42;
       SystemDashboard.process_table := Samples.table_sample |}
    Samples.rows_sample
  = {| SystemDashboard.pinned_pid := None;
       SystemDashboard.process_table := Samples.rows_sample |}.
Proof.
  assert ((42 : Z) ≠ 0) as Hp by lia.
  eapply (proj1 (update_processes_clears_pin Samples.Process_gone
                   {| SystemDashboard.pinned_pid := Some 42;
                      SystemDashboard.process_table := Samples.table_sample |}
                   Samples.rows_sample 42 eq_refl Hp)).
  reflexivity.
Defined.

(** C4, as the specification states it, fails: with pid 3 pinned, two
    clicks on pid 7 leave nothing pinned. *)
Lemma toggle_twice_other_pid :
  SystemDashboard.toggle (SystemDashboard.toggle (Some 3) 7) 7 = None
  ∧ SystemDashboard.toggle (SystemDashboard.toggle (Some 3) 7) 7 ≠ Some 3.
Proof. split; [reflexivity|discriminate]. Qed.

(** C4, amended: two clicks in a row on the row of pid p bring the pin
    back to what it was when nothing or p itself was pinned; when another
    pid was pinned they leave nothing pinned. *)
Theorem toggle_pinned_process_twice
    (st : SystemDashboard.dashboard) (row : nat) (r : proc_row) :
  SystemDashboard.process_table st !! row = Some r →
  (st' ← SystemDashboard._toggle_pinned_process st row;
   SystemDashboard._toggle_pinned_process st' row)
  = Ok {| SystemDashboard.pinned_pid :=
            match SystemDashboard.pinned_pid st with
            | None => None
            | Some q => if decide (q = row_pid r) then Some q else None
            end;
          SystemDashboard.process_table := SystemDashboard.process_table st |}.
Proof.
  intros Hrow. unfold SystemDashboard._toggle_pinned_process.
  rewrite Hrow. simpl. rewrite Hrow. by rewrite toggle_twice.
Qed.

(** Two clicks on the row of the pinned pid 42. *)
Lemma toggle_pinned_process_twice_sample :
  (st' ← SystemDashboard._toggle_pinned_process
           {| SystemDashboard.pinned_pid := Some 42;
              SystemDashboard.process_table := Samples.table_sample |} 0;
   SystemDashboard._toggle_pinned_process st' 0)
  = Ok {| SystemDashboard.pinned_pid := Some 42;
          SystemDashboard.process_table := Samples.table_sample |}.
Proof.
  apply (toggle_pinned_process_twice
           {| SystemDashboard.pinned_pid := Some 42;
              SystemDashboard.process_table := Samples.table_sample |}
           0 (42, Some "worker", (130 # 10)%Q, 70000)).
  reflexivity.
Defined.

(** C5, as the specification states it, fails: with pid 42 pinned and
    present in the list, but gone when it is queried, the list is shown
    as it came, with another process in the first row. *)
Lemma update_processes_pin_not_first :
  (42 ∈ row_pid <$> Samples.rows_sample)
  ∧ (row_pid <$> SystemDashboard.process_table
       (SystemDashboard._update_processes Samples.Process_gone
          {| SystemDashboard.pinned_pid := Some 42;
             SystemDashboard.process_table := [] |}
          Samples.rows_sample))
    = [17; 42; 1].
Proof. split; [compute_done|reflexivity]. Qed.

(** C5, amended: when a pid other than 0 is pinned and the live query of
    that process answers, the reconciled list has the row just queried
    for that pid in the first place, followed by the rows of the list of
    other pids in their order, none of them with the pinned pid; the
    table shows the first 100 rows of it. *)
Theorem update_processes_pin_first
    (os_Process : Z → result (string * Q * Z))
    (st : SystemDashboard.dashboard) (processes : list proc_row)
    (p : Z) (name : string) (cpu_percent : Q) (rss : Z) :
  SystemDashboard.pinned_pid st = Some p → p ≠ 0 →
  os_Process p = Ok (name, cpu_percent, rss) →
  ∃ others,
    SystemDashboard.reconcile os_Process (Some p) processes
    = (Some p, (p, Some name, cpu_percent, rss) :: others)
    ∧ others = filter (λ proc, row_pid proc ≠ p) processes
    ∧ Forall (λ proc, row_pid proc ≠ p) others
    ∧ others `sublist_of` processes
    ∧ SystemDashboard._update_processes os_Process st processes
      = {| SystemDashboard.pinned_pid := Some p;
           SystemDashboard.process_table :=
             (p, Some name, cpu_percent, rss) :: take 99 others |}.
Proof.
  intros Hpin Hp Hq.
  exists (filter (λ proc, row_pid proc ≠ p) processes).
  split; [by apply reconcile_query_ok|].
  split; [done|].
  split; [apply Forall_forall; by intros proc [? _]%list_elem_of_filter|].
  split; [apply sublist_filter|].
  unfold SystemDashboard._update_processes. rewrite Hpin.
  by rewrite (reconcile_query_ok _ _ name cpu_percent rss).
Qed.

(** Pid 42 is pinned and answers the live query. *)
Lemma update_processes_pin_first_sample :
  SystemDashboard._update_processes Samples.Process_sample
    {| SystemDashboard.pinned_pid := Some 42;
       SystemDashboard.process_table := [] |}
    Samples.rows_sample
  = {| SystemDashboard.pinned_pid := Some 42;
       SystemDashboard.process_table := Samples.table_sample |}.
Proof.
  assert ((42 : Z) ≠ 0) as Hp by lia.
  destruct (update_processes_pin_first Samples.Process_sample
              {| SystemDashboard.pinned_pid := Some 42;
                 SystemDashboard.process_table := [] |}
              Samples.rows_sample 42 "worker" (130 # 10)%Q 70000
              eq_refl Hp eq_refl)
    as (others & _ & -> & _ & _ & ->).
  reflexivity.
Defined.

(** ** The two kill commands *)

(** C6, as the specification states it, fails: the button under the
    table terminates the pinned process, reports success, and leaves it
    pinned. *)
Lemma kill_process_keeps_pin :
  SystemDashboard._kill_process Samples.terminate_ok 0
    {| SystemDashboard.pinned_pid := Some 42;
       SystemDashboard.process_table := Samples.table_sample |}
  = ({| SystemDashboard.pinned_pid := Some 42;
        SystemDashboard.process_table := Samples.table_sample |},
     [SystemDashboard.Information "Успешно" "Процесс 42 завершен"]).
Proof. reflexivity. Qed.

(** C6, amended: both kill commands report what happened in a message
    box and raise nothing.  The command on the pinned process (Ctrl+Z),
    once confirmed, clears the pin when the termination succeeds and
    leaves the pin as it is when the termination fails; declined, it
    changes nothing.  The command on the current row (the button) never
    changes the pin, whichever process it terminates. *)
Theorem kill_commands_pin (os_terminate : Z → result unit)
    (st : SystemDashboard.dashboard) :
  (∀ p, SystemDashboard.pinned_pid st = Some p → p ≠ 0 →
     (os_terminate p = Ok () →
      SystemDashboard._kill_pinned_process os_terminate true st
      = ({| SystemDashboard.pinned_pid := None;
            SystemDashboard.process_table :=
              SystemDashboard.process_table st |},
         [SystemDashboard.Question "Confirm Termination"
            ("Terminate process PID " +:+ pretty p +:+ "?");
          SystemDashboard.Information "Success"
            "Pinned process terminated"]))
     ∧ (∀ e, os_terminate p = Raise e →
        SystemDashboard._kill_pinned_process os_terminate true st
        = (st,
           [SystemDashboard.Question "Confirm Termination"
              ("Terminate process PID " +:+ pretty p +:+ "?");
            SystemDashboard.Critical "Error" ("Error: " +:+ exc_msg e)]))
     ∧ SystemDashboard._kill_pinned_process os_terminate false st
       = (st,
          [SystemDashboard.Question "Confirm Termination"
             ("Terminate process PID " +:+ pretty p +:+ "?")]))
  ∧ (∀ current_row,
       (SystemDashboard._kill_process os_terminate current_row st).1 = st)
  ∧ (∀ current_row r,
       0 ≤ current_row →
       SystemDashboard.process_table st !! Z.to_nat current_row = Some r →
       (os_terminate (row_pid r) = Ok () →
        (SystemDashboard._kill_process os_terminate current_row st).2
        = [SystemDashboard.Information "Успешно"
             ("Процесс " +:+ pretty (row_pid r) +:+ " завершен")])
       ∧ (∀ e, os_terminate (row_pid r) = Raise e →
          (SystemDashboard._kill_process os_terminate current_row st).2
          = [SystemDashboard.Critical "Ошибка"
               ("Ошибка: " +:+ exc_msg e)])).
Proof.
  split; [|split].
  - intros p Hpin Hp. unfold SystemDashboard._kill_pinned_process.
    rewrite Hpin. simpl.
    destruct (Z.eqb_spec p 0) as [|_]; [done|]. simpl.
    repeat split.
    + by intros ->.
    + by intros e ->.
  - intros current_row. unfold SystemDashboard._kill_process.
    destruct (0 <=? current_row); [|done].
    destruct (SystemDashboard.process_table st !! Z.to_nat current_row);
      [|done].
    by destruct (os_terminate _).
  - intros current_row r Hrow Hr. unfold SystemDashboard._kill_process.
    destruct (Z.leb_spec 0 current_row) as [_|]; [|lia].
    rewrite Hr. split.
    + by intros ->.
    + by intros e ->.
Qed.

(** Pid 42 is pinned, in the first row of the table; pid 17 is in the
    second row. *)
Lemma kill_commands_pin_sample :
  SystemDashboard._kill_pinned_process Samples.terminate_ok true
    {| SystemDashboard.pinned_pid := Some 42;
       SystemDashboard.process_table := Samples.table_sample |}
  = ({| SystemDashboard.pinned_pid := None;
        SystemDashboard.process_table := Samples.table_sample |},
     [SystemDashboard.Question "Confirm Termination"
        "Terminate process PID 42?";
      SystemDashboard.Information "Success" "Pinned process terminated"])
  ∧ SystemDashboard._kill_pinned_process Samples.terminate_denied true
      {| SystemDashboard.pinned_pid := Some 42;
         SystemDashboard.process_table := Samples.table_sample |}
    = ({| SystemDashboard.pinned_pid := Some 42;
          SystemDashboard.process_table := Samples.table_sample |},
       [SystemDashboard.Question "Confirm Termination"
          "Terminate process PID 42?";
        SystemDashboard.Critical "Error" "Error: (pid=42)"])
  ∧ (SystemDashboard._kill_process Samples.terminate_denied 1
       {| SystemDashboard.pinned_pid := Some 42;
          SystemDashboard.process_table := Samples.table_sample |}).2
    = [SystemDashboard.Critical "Ошибка" "Ошибка: (pid=17)"].
Proof.
  assert ((42 : Z) ≠ 0) as Hp by lia.
  assert (0 ≤ (1 : Z)) as Hrow by lia.
  split; [|split].
  - destruct (kill_commands_pin Samples.terminate_ok
                {| SystemDashboard.pinned_pid := Some 42;
                   SystemDashboard.process_table := Samples.table_sample |})
      as (Hpinned & _ & _).
    destruct (Hpinned 42 eq_refl Hp) as (Hok & _ & _).
    apply Hok. reflexivity.
  - destruct (kill_commands_pin Samples.terminate_denied
                {| SystemDashboard.pinned_pid := Some 42;
                   SystemDashboard.process_table := Samples.table_sample |})
      as (Hpinned & _ & _).
    destruct (Hpinned 42 eq_refl Hp) as (_ & Hfail & _).
    apply (Hfail (Exc "(pid=42)")). reflexivity.
  - destruct (kill_commands_pin Samples.terminate_denied
                {| SystemDashboard.pinned_pid := Some 42;
                   SystemDashboard.process_table := Samples.table_sample |})
      as (_ & _ & Hbutton).
    destruct (Hbutton 1 (17, Some "sshd", (300 # 10)%Q, 8192) Hrow eq_refl)
      as (_ & Hfail).
    apply (Hfail (Exc "(pid=17)")). reflexivity.
Defined.

(** * Further properties of the sampling thread *)

Section loop_accounting.
Import SystemMonitor.

Lemma emitted_app (t1 t2 : list event) :
  emitted (t1 ++ t2) = emitted t1 ++ emitted t2.
Proof. apply omap_app. Qed.

Lemma printed_app (t1 t2 : list event) :
  printed (t1 ++ t2) = printed t1 ++ printed t2.
Proof. apply omap_app. Qed.

Lemma slept_app (t1 t2 : list event) :
  slept (t1 ++ t2) = slept t1 + slept t2.
Proof.
  induction t1 as [|[d|ms|text] t1 IH]; simpl; rewrite ?IH; lia.
Qed.

(** The trace of the iterations [ks], one after the other. *)
Lemma iterations_accounting (os : nat → os_readings) (ks : list nat)
    (trace : list event) :
  trace = concat ((λ k, (iteration (os k)).1) <$> ks) →
  emitted trace = omap (λ k, ok_value (data (os k))) ks
  ∧ printed trace
    = omap (λ k, match data (os k) with
                 | Ok _ => None
                 | Raise e => Some ("Monitoring error: " +:+ exc_msg e)
                 end) ks
  ∧ slept trace = 3500 * Z.of_nat (length (emitted trace))
  ∧ (length (emitted trace) + length (printed trace))%nat = length ks.
Proof.
  intros ->. induction ks as [|k ks (IHe & IHp & IHs & IHn)]; [done|].
  rewrite fmap_cons. cbn [concat omap list_omap].
  rewrite emitted_app, printed_app, slept_app, !length_app, IHs.
  rewrite iteration_eq. rewrite <- IHe, <- IHp.
  destruct (data (os k)) as [d|e]; cbn -[Z.mul]; repeat split; try done; lia.
Qed.

End loop_accounting.

(** X1: the snapshots that the loop emits are, in order, those of the
    iterations whose six collectors all returned, and the texts it prints
    are, in order, the errors of the others: every iteration does the one
    or the other.  The thread sleeps 3500 ms once per emitted snapshot. *)
Theorem run_accounting (fuel : nat) (os : nat → os_readings) :
  let trace := (SystemMonitor.run fuel os).1 in
  emitted trace = omap (λ k, ok_value (SystemMonitor.data (os k))) (seq 0 fuel)
  ∧ printed trace
    = omap (λ k, match SystemMonitor.data (os k) with
                 | Ok _ => None
                 | Raise e => Some ("Monitoring error: " +:+ exc_msg e)
                 end) (seq 0 fuel)
  ∧ slept trace = 3500 * Z.of_nat (length (emitted trace))
  ∧ (length (emitted trace) + length (printed trace))%nat = fuel.
Proof.
  intros trace. subst trace. rewrite run_eq. simpl fst.
  pose proof (iterations_accounting os (seq 0 fuel) _ eq_refl) as H.
  by rewrite length_seq in H.
Qed.

(** X2: a failed iteration does not sleep.  While every iteration fails,
    the loop prints one error per iteration and never sleeps. *)
Theorem run_failing_never_sleeps (fuel : nat) (os : nat → os_readings) :
  (∀ k, (k < fuel)%nat → is_ok (SystemMonitor.data (os k)) = false) →
  slept (SystemMonitor.run fuel os).1 = 0
  ∧ emitted (SystemMonitor.run fuel os).1 = []
  ∧ length (printed (SystemMonitor.run fuel os).1) = fuel.
Proof.
  intros Hfail.
  destruct (iterations_accounting os (seq 0 fuel)
              (SystemMonitor.run fuel os).1) as (He & _ & Hs & Hn).
  { by rewrite run_eq. }
  rewrite length_seq in Hn.
  assert (emitted (SystemMonitor.run fuel os).1 = []) as Hnone.
  { rewrite He. clear He Hs Hn.
    assert (∀ k, k ∈ seq 0 fuel → is_ok (SystemMonitor.data (os k)) = false)
      as Hks.
    { intros k Hk%elem_of_seq. apply Hfail. lia. }
    induction (seq 0 fuel) as [|k ks IH]; simpl; [done|].
    pose proof (Hks k ltac:(left)) as Hk.
    destruct (SystemMonitor.data (os k)); [discriminate|]. simpl.
    apply IH. intros k' Hk'. apply Hks. by right. }
  rewrite Hnone in Hs, Hn. simpl in Hs, Hn.
  split; [lia|]. split; [done|]. lia.
Qed.

(** Three iterations with one mount point denied. *)
Lemma run_failing_never_sleeps_sample :
  slept (SystemMonitor.run 3 Samples.os_stream_denied).1 = 0
  ∧ emitted (SystemMonitor.run 3 Samples.os_stream_denied).1 = []
  ∧ length (printed (SystemMonitor.run 3 Samples.os_stream_denied).1) = 3%nat.
Proof.
  apply (run_failing_never_sleeps 3 Samples.os_stream_denied).
  intros k _. reflexivity.
Defined.

Section collectors.
Import SystemMonitor.

Lemma rmap_is_ok {A B} (f : A → result B) (l : list A) :
  is_ok (rmap f l) = true ↔ Forall (λ a, is_ok (f a) = true) l.
Proof.
  induction l as [|a l IH]; simpl.
  - split; [constructor|done].
  - rewrite Forall_cons, <- IH.
    destruct (f a) as [b|e]; simpl; [|intuition discriminate].
    destruct (rmap f l) as [bs|e]; simpl; intuition discriminate.
Qed.

Lemma string_app_cons (c : ascii) (s1 s2 : string) :
  String c s1 +:+ s2 = String c (s1 +:+ s2).
Proof. reflexivity. Qed.

Lemma string_app_assoc (s1 s2 s3 : string) :
  (s1 +:+ s2) +:+ s3 = s1 +:+ s2 +:+ s3.
Proof.
  induction s1 as [|c s1 IH]; [done|].
  by rewrite !string_app_cons, IH.
Qed.

Lemma string_app_nil_r (s : string) : s +:+ "" = s.
Proof.
  induction s as [|c s IH]; [done|]. by rewrite string_app_cons, IH.
Qed.

Lemma has_char_app (c : ascii) (s1 s2 : string) :
  has_char c (s1 +:+ s2) = has_char c s1 || has_char c s2.
Proof.
  induction s1 as [|c1 s1 IH]; [done|].
  rewrite string_app_cons. simpl. rewrite IH. by rewrite orb_assoc.
Qed.

(** What [split_last_from] returns has no slash; it is what remains of
    [acc +:+ s] behind its last slash. *)
Lemma split_last_from_spec (acc s : string) :
  has_char "/" acc = false →
  has_char "/" (split_last_from acc s) = false
  ∧ (has_char "/" s = false → split_last_from acc s = acc +:+ s)
  ∧ ∃ pre, acc +:+ s = pre +:+ split_last_from acc s
           ∧ (pre = "" ∨ ∃ pre', pre = pre' +:+ "/").
Proof.
  revert acc. induction s as [|c s IH]; intros acc Hacc.
  - simpl. rewrite string_app_nil_r.
    split; [done|]. split; [done|]. exists "". by split; [|left].
  - cbn [split_last_from has_char].
    destruct (Ascii.eqb_spec c "/") as [->|Hc].
    + destruct (IH "" eq_refl) as (Hno & _ & pre & Hpre & Hend).
      split; [done|]. split; [done|].
      exists (acc +:+ "/" +:+ pre). split.
      * rewrite !string_app_assoc. f_equal.
        change ("/" +:+ pre +:+ split_last_from "" s)
          with (String "/" ("" +:+ (pre +:+ split_last_from "" s))).
        by rewrite <- Hpre.
      * right. destruct Hend as [->|[pre' ->]].
        -- exists acc. by rewrite string_app_nil_r.
        -- exists (acc +:+ "/" +:+ pre'). by rewrite !string_app_assoc.
    + assert (has_char "/" (acc +:+ String c "") = false) as Hacc'.
      { rewrite has_char_app, Hacc. simpl.
        by destruct (Ascii.eqb_spec c "/"). }
      destruct (IH _ Hacc') as (Hno & Hsame & pre & Hpre & Hend).
      rewrite string_app_assoc in Hpre, Hsame.
      split; [done|]. split; [|by exists pre].
      simpl. exact Hsame.
Qed.

End collectors.

Section collector_facts.
Import SystemMonitor.

Lemma str_truthy_ne (s : string) : str_truthy s ↔ s ≠ "".
Proof. by destruct s. Qed.

Lemma disk_data_mounts_eq (os : os_readings) (parts : list sdiskpart)
    (d : list disk_data) :
  rmap (λ part,
          du ← os_disk_usage os (part_mountpoint part);
          Ok {| dd_device := split_last (part_device part);
                dd_mount := part_mountpoint part;
                dd_total := du_total du;
                dd_used := du_used du;
                dd_percent := du_percent du |}) parts = Ok d →
  dd_mount <$> d = part_mountpoint <$> parts
  ∧ dd_device <$> d = (split_last ∘ part_device) <$> parts.
Proof.
  intros Hd%rmap_Forall2.
  induction Hd as [|part entry ps es Hentry _ [IHm IHd]]; [done|].
  destruct (os_disk_usage os (part_mountpoint part)); [|discriminate].
  simpl in Hentry. injection Hentry as <-.
  rewrite !fmap_cons, IHm, IHd. done.
Qed.

End collector_facts.

Section process_data_returns.
Import SystemMonitor.

Lemma comprehension_total (l : list pinfo) :
  Forall (λ p, is_Some (info_memory_info p)) l →
  rmap (λ p,
          match info_memory_info p with
          | Some mem =>
              Ok (info_pid p, info_name p, info_cpu_percent p, pmem_rss mem)
          | None => Raise (Exc "'NoneType' object has no attribute 'rss'")
          end) l
  = Ok (omap (λ p, tuple_of p <$> info_memory_info p) l).
Proof.
  induction 1 as [|p l [mem Hmem] _ IH]; simpl; [done|].
  by rewrite Hmem, IH.
Qed.

Lemma sorted_cpu_reverse_is_ok (rows : list sampled_row) :
  is_ok (sorted_cpu_reverse rows) = true
  ↔ (length rows < 2)%nat ∨ Forall (λ r, is_Some (sampled_cpu r)) rows.
Proof.
  destruct rows as [|a [|b rows]].
  - split; [left; simpl; lia|done].
  - split; [left; simpl; lia|done].
  - rewrite sorted_cpu_reverse_two. set (l := a :: b :: rows).
    destruct (forallb _ l) eqn:Hall; simpl.
    + split; [|done]. intros _. right.
      apply Is_true_true, forallb_True in Hall.
      eapply Forall_impl; [exact Hall|].
      intros r Hr. by apply bool_decide_unpack in Hr.
    + split; [done|]. intros [Hlen|Hsome]; [simpl in Hlen; lia|].
      assert (forallb (λ x, bool_decide (is_Some (sampled_cpu x))) l = true)
        as Htrue; [|congruence].
      apply Is_true_true, forallb_True.
      eapply Forall_impl; [exact Hsome|].
      intros r Hr. by apply bool_decide_pack.
Qed.

Lemma tuples_cpu (l : list pinfo) (rows : list sampled_row) :
  Forall2 (λ p r, ∃ mem, info_memory_info p = Some mem
                         ∧ r = tuple_of p mem) l rows →
  Forall (λ r, is_Some (sampled_cpu r)) rows
  ↔ Forall (λ p, is_Some (info_cpu_percent p)) l.
Proof.
  induction 1 as [|p r l rows (mem & _ & ->) _ IH]; [done|].
  rewrite !Forall_cons, IH. done.
Qed.

End process_data_returns.

(** X3: when the enumeration answers, the process list is built exactly
    when every process with a name has a memory information and, if two
    processes or more have a name, every one of them has a cpu percent;
    otherwise the collector raises.  When it is built it has one row per
    process with a name, up to 100 rows: with at most 100 such processes
    none of them is left out. *)
Theorem process_data_returns (os : os_readings) (procs : list pinfo) :
  os_process_iter os = Ok procs →
  (is_ok (SystemMonitor._get_process_data os) = true
   ↔ Forall (λ p, is_Some (info_memory_info p)) (named procs)
     ∧ ((length (named procs) < 2)%nat
        ∨ Forall (λ p, is_Some (info_cpu_percent p)) (named procs)))
  ∧ (∀ rows, SystemMonitor._get_process_data os = Ok rows →
       length rows = (length (named procs) `min` 100)%nat
       ∧ ((length (named procs) ≤ 100)%nat → rows ≡ₚ named_rows procs)).
Proof.
  intros Hiter. split.
  - split.
    + destruct (SystemMonitor._get_process_data os) as [rows|e] eqn:Hrows;
        [|discriminate].
      intros _.
      apply process_data_inv in Hrows
        as (procs' & sorted & Hiter' & Hmem & Htuples & Hsorted & _).
      assert (procs' = procs) as -> by congruence.
      split; [exact Hmem|].
      assert (is_ok (sorted_cpu_reverse (named_rows procs)) = true) as Hok
        by by rewrite Hsorted.
      apply sorted_cpu_reverse_is_ok in Hok as [Hlen|Hcpu].
      * left. by rewrite (Forall2_length _ _ _ Htuples).
      * right. by apply (tuples_cpu _ _ Htuples).
    + intros [Hmem Hcpu].
      pose proof (comprehension_total _ Hmem) as Hrows0.
      pose proof (comprehension_ok _ _ Hrows0) as (_ & _ & Htuples).
      unfold SystemMonitor._get_process_data. rewrite Hiter. simpl.
      fold (named procs). rewrite Hrows0. simpl.
      fold (named_rows procs) in *.
      assert (is_ok (sorted_cpu_reverse (named_rows procs)) = true) as Hok.
      { apply sorted_cpu_reverse_is_ok. destruct Hcpu as [Hlen|Hcpu].
        - left. by rewrite <- (Forall2_length _ _ _ Htuples).
        - right. by apply (tuples_cpu _ _ Htuples). }
      by destruct (sorted_cpu_reverse (named_rows procs)).
  - intros rows Hrows.
    apply process_data_inv in Hrows
      as (procs' & sorted & Hiter' & _ & Htuples & Hsorted & ->).
    assert (procs' = procs) as -> by congruence.
    pose proof (sorted_cpu_reverse_length _ _ Hsorted) as Hlen.
    rewrite <- (Forall2_length _ _ _ Htuples) in Hlen.
    split.
    + rewrite length_take. lia.
    + intros Hle. rewrite take_ge by lia.
      by apply sorted_cpu_reverse_Permutation.
Qed.

(** Four of the six sample processes have a name, and these can be read;
    with a named process whose memory information cannot be read the
    collector raises. *)
Lemma process_data_returns_sample :
  (∃ rows : list sampled_row,
     SystemMonitor._get_process_data Samples.os_sample = Ok rows
     ∧ length rows = 4%nat)
  ∧ is_ok (SystemMonitor._get_process_data Samples.os_procs_denied) = false.
Proof.
  destruct (process_data_returns Samples.os_sample Samples.procs_sample
              eq_refl) as [_ Hlen].
  destruct (process_data_returns Samples.os_procs_denied Samples.procs_denied
              eq_refl) as [Hok _].
  split.
  - eexists. split; [reflexivity|]. by apply Hlen.
  - apply not_true_is_false. intros E.
    apply Hok in E as [Hmem _].
    apply Forall_cons in Hmem as [[mem Hmem] _]. discriminate Hmem.
Defined.

(** X4: the device name shown for a partition is what follows the last
    slash of its device path: it has no slash, the path is a prefix that
    is empty or ends with a slash followed by it, and a path without a
    slash is shown whole. *)
Theorem split_last_basename (s : string) :
  has_char "/" (split_last s) = false
  ∧ (has_char "/" s = false → split_last s = s)
  ∧ ∃ pre, s = pre +:+ split_last s
           ∧ (pre = "" ∨ ∃ pre', pre = pre' +:+ "/").
Proof. apply (split_last_from_spec "" s). reflexivity. Qed.

Lemma split_last_basename_sample : split_last "loop0" = "loop0".
Proof.
  apply (proj1 (proj2 (split_last_basename "loop0"))). reflexivity.
Defined.

(** X5: the disk collector asks the usage of the partitions with a mount
    point only, in their order.  It returns exactly when every one of
    these queries answers, and then has one entry per such partition, in
    order, each with a mount point that is not empty and a device name
    without a slash. *)
Theorem disk_data_mounts (os : os_readings) (parts : list sdiskpart) :
  os_disk_partitions os = Ok parts →
  (is_ok (SystemMonitor._get_disk_data os) = true
   ↔ Forall (λ part, part_mountpoint part ≠ "" →
                     is_ok (os_disk_usage os (part_mountpoint part)) = true)
            parts)
  ∧ (∀ d, SystemMonitor._get_disk_data os = Ok d →
          dd_mount <$> d
          = part_mountpoint
              <$> filter (λ part, part_mountpoint part ≠ "") parts
          ∧ Forall (λ entry, dd_mount entry ≠ ""
                             ∧ has_char "/" (dd_device entry) = false) d).
Proof.
  intros Hparts. unfold SystemMonitor._get_disk_data. rewrite Hparts. simpl.
  assert (filter (λ part, str_truthy (part_mountpoint part)) parts
          = filter (λ part, part_mountpoint part ≠ "") parts) as ->.
  { apply list_filter_iff. intros part. apply str_truthy_ne. }
  split.
  - rewrite rmap_is_ok, Forall_forall, Forall_forall.
    split.
    + intros H part Hin Hne.
      specialize (H part). rewrite list_elem_of_filter in H.
      specialize (H (conj Hne Hin)).
      by destruct (os_disk_usage os (part_mountpoint part)).
    + intros H part [Hne Hin]%list_elem_of_filter.
      specialize (H part Hin Hne).
      by destruct (os_disk_usage os (part_mountpoint part)).
  - intros d Hd. apply disk_data_mounts_eq in Hd as [Hm Hdev].
    split; [exact Hm|].
    apply Forall_forall. intros entry Hentry. split.
    + assert (dd_mount entry ∈ dd_mount <$> d) as Hin
        by by apply list_elem_of_fmap_2.
      rewrite Hm in Hin.
      apply list_elem_of_fmap in Hin as (part & -> & [Hne _]%list_elem_of_filter).
      exact Hne.
    + assert (dd_device entry ∈ dd_device <$> d) as Hin
        by by apply list_elem_of_fmap_2.
      rewrite Hdev in Hin.
      apply list_elem_of_fmap in Hin as (part & -> & _).
      by apply (split_last_from_spec "" (part_device part)).
Qed.

(** The sample partitions: two with a mount point, one without. *)
Lemma disk_data_mounts_sample :
  is_ok (SystemMonitor._get_disk_data Samples.os_sample) = true
  ∧ ∃ d, SystemMonitor._get_disk_data Samples.os_sample = Ok d
         ∧ dd_mount <$> d = ["/"; "/mnt/secure"].
Proof.
  destruct (disk_data_mounts Samples.os_sample _ eq_refl) as [Hok Hd].
  split.
  - apply Hok. repeat constructor.
  - eexists. split; [reflexivity|]. apply Hd. reflexivity.
Defined.

(** X6: the CPU collector returns exactly when the four psutil queries
    return (the frequency, the two core counts and the load): a failing
    reader of the model or of the temperature never makes it fail, its
    sentinel goes into the entry; and the frequency is "N/A" exactly when
    the frequency query answers nothing. *)
Theorem cpu_data_isolated (os : os_readings) :
  is_ok (SystemMonitor._get_cpu_data os)
  = is_ok (os_cpu_freq os) && is_ok (os_cpu_count os false)
    && is_ok (os_cpu_count os true) && is_ok (os_cpu_percent os)
  ∧ (∀ c, SystemMonitor._get_cpu_data os = Ok c →
          cpu_Model c = SystemMonitor._get_cpu_model os
          ∧ cpu_Temperature c = SystemMonitor._get_cpu_temp os
          ∧ (cpu_Frequency c = FreqNA ↔ os_cpu_freq os = Ok None)).
Proof.
  unfold SystemMonitor._get_cpu_data.
  destruct (os_cpu_freq os) as [freq|]; simpl; [|by split].
  destruct (os_cpu_count os false); simpl; [|by split].
  destruct (os_cpu_count os true); simpl; [|by split].
  destruct (os_cpu_percent os); simpl; [|by split].
  split; [done|]. intros c [= <-]. simpl.
  split; [done|]. split; [done|].
  destruct freq; split; intros; simplify_eq; done.
Qed.

(** The sample readings: every query answers. *)
Lemma cpu_data_isolated_sample :
  ∃ c, SystemMonitor._get_cpu_data Samples.os_sample = Ok c
       ∧ cpu_Model c = "Example CPU"
       ∧ cpu_Temperature c = TempC (inject_Z 45000 / 1000).
Proof.
  eexists. split; [reflexivity|].
  destruct (proj2 (cpu_data_isolated Samples.os_sample) _ eq_refl)
    as (Hmodel & Htemp & _).
  split; [exact Hmodel|exact Htemp].
Defined.

(** X7: the network entry has exactly the interfaces of the address map:
    an interface that only the status map has is not reported.  Each
    entry has the addresses of its interface in their order, and the
    status of the status map when the interface is there. *)
Theorem network_data_domain (os : os_readings) (net : snetio)
    (addrs : gmap string (list snicaddr)) (ifstats : gmap string snicstats) :
  os_net_io_counters os = Ok net →
  os_net_if_addrs os = Ok addrs →
  os_net_if_stats os = Ok ifstats →
  ∃ n : network_data,
    SystemMonitor._get_network_data os = Ok n
    ∧ dom (interfaces n) = dom addrs
    ∧ (∀ iface, addrs !! iface = None → interfaces n !! iface = None)
    ∧ (∀ iface addr_list,
         addrs !! iface = Some addr_list →
         ∃ info, interfaces n !! iface = Some info
                 ∧ addresses info = nic_address <$> addr_list
                 ∧ (∀ st, ifstats !! iface = Some st →
                          is_up (stats info) = nic_isup st)).
Proof.
  intros Hnet Haddrs Hstats.
  destruct (SystemMonitor._get_network_data os) as [n|e] eqn:Hn; cycle 1.
  { unfold SystemMonitor._get_network_data in Hn.
    by rewrite Hnet, Haddrs, Hstats in Hn. }
  exists n. split; [done|].
  apply network_data_eq in Hn
    as (net' & addrs' & ifstats' & Hnet' & Haddrs' & Hstats' & Hn).
  assert (net' = net) as -> by congruence.
  assert (addrs' = addrs) as -> by congruence.
  assert (ifstats' = ifstats) as -> by congruence.
  split; [|split].
  - apply set_eq. intros iface. rewrite !elem_of_dom, Hn.
    by rewrite fmap_is_Some.
  - intros iface Hnone. by rewrite Hn, Hnone.
  - intros iface addr_list Hal. rewrite Hn, Hal. simpl.
    eexists. split; [done|]. split; [done|].
    by intros st ->.
Qed.

(** On the sample readings lo has an address and a status. *)
Lemma network_data_domain_sample :
  ∃ n info,
    SystemMonitor._get_network_data Samples.os_sample = Ok n
    ∧ interfaces n !! "lo" = Some info
    ∧ addresses info = ["127.0.0.1"]
    ∧ is_up (stats info) = true
    ∧ interfaces n !! "wlan0" = None.
Proof.
  destruct (network_data_domain Samples.os_sample _ _ _
              eq_refl eq_refl eq_refl)
    as (n & Hn & _ & Hnone & Hsome).
  destruct (Hsome "lo" _ eq_refl) as (info & Hinfo & Haddr & Hup).
  exists n, info. split; [exact Hn|]. split; [exact Hinfo|].
  split; [exact Haddr|]. split.
  - apply (Hup {| nic_isup := true |}). reflexivity.
  - apply Hnone. reflexivity.
Defined.

(** * Further properties of the dashboard *)

Section dashboard_facts.
Import SystemDashboard.

Lemma pid_truthy_Some (p : Z) : p ≠ 0 → pid_truthy (Some p) = Some p.
Proof. intros Hp. simpl. by destruct (Z.eqb_spec p 0). Qed.

Lemma pid_truthy_inv (pinned : option Z) (p : Z) :
  pid_truthy pinned = Some p → pinned = Some p ∧ p ≠ 0.
Proof.
  destruct pinned as [q|]; simpl; [|done].
  destruct (Z.eqb_spec q 0); [done|]. by intros [= <-].
Qed.

Lemma filter_other_pids_idemp (p : Z) (l : list proc_row) :
  filter (λ proc, row_pid proc ≠ p) (filter (λ proc, row_pid proc ≠ p) l)
  = filter (λ proc, row_pid proc ≠ p) l.
Proof.
  induction l as [|r l IH]; [done|].
  rewrite filter_cons. destruct (decide (row_pid r ≠ p)) as [Hr|Hr]; [|done].
  rewrite filter_cons. destruct (decide (row_pid r ≠ p)); [|done].
  by rewrite IH.
Qed.

Lemma reconcile_unpinned os_Process (pinned : option Z) processes :
  pid_truthy pinned = None →
  reconcile os_Process pinned processes = (pinned, processes).
Proof. intros Hp. unfold reconcile. by rewrite Hp. Qed.

Lemma highlight_unpinned (st : dashboard) :
  pid_truthy (pinned_pid st) = None →
  _highlight_pinned_process st
  = replicate (length (process_table st)) false.
Proof.
  intros Hp. unfold _highlight_pinned_process. rewrite Hp.
  induction (process_table st) as [|r l IH]; [done|].
  by rewrite fmap_cons, IH.
Qed.

Lemma highlight_others (p : Z) (l : list proc_row) :
  Forall (λ proc, row_pid proc ≠ p) l →
  (λ r, bool_decide (row_pid r = p)) <$> l = replicate (length l) false.
Proof.
  induction 1 as [|r l Hr _ IH]; [done|].
  rewrite fmap_cons, IH. simpl. by rewrite bool_decide_eq_false_2.
Qed.

Lemma highlight_length (st : dashboard) :
  length (_highlight_pinned_process st) = length (process_table st).
Proof. unfold _highlight_pinned_process. by rewrite length_fmap. Qed.

Lemma update_processes_table_length os_Process st processes :
  (length (process_table (_update_processes os_Process st processes)) ≤ 100)%nat.
Proof.
  unfold _update_processes.
  destruct (reconcile os_Process (pinned_pid st) processes) as [pinned l].
  simpl. rewrite length_take. lia.
Qed.

Lemma kill_pinned_process_state os_terminate confirm st :
  (_kill_pinned_process os_terminate confirm st).1
  = match pid_truthy (pinned_pid st) with
    | Some pid =>
        if confirm && is_ok (os_terminate pid)
        then {| pinned_pid := None; process_table := process_table st |}
        else st
    | None => st
    end.
Proof.
  unfold _kill_pinned_process.
  destruct (pid_truthy (pinned_pid st)) as [pid|]; [|done].
  destruct confirm; [|done]. by destruct (os_terminate pid).
Qed.

Lemma kill_process_state os_terminate current_row st :
  (_kill_process os_terminate current_row st).1 = st.
Proof.
  unfold _kill_process.
  destruct (0 <=? current_row); [|done].
  destruct (process_table st !! Z.to_nat current_row); [|done].
  by destruct (os_terminate _).
Qed.

Lemma slot_coloured (w w' : window) (s : signal) (dialogs : list dialog) :
  coloured w → slot w s = Ok (w', dialogs) → coloured w'.
Proof.
  intros [Hcol Hlen] Hslot. destruct s as [q l|row|t confirm|t row]; simpl in Hslot.
  - injection Hslot as <- _. split; [done|]. simpl.
    apply update_processes_table_length.
  - unfold _toggle_pinned_process in Hslot.
    destruct (process_table (state w) !! row); [|discriminate].
    simpl in Hslot. injection Hslot as <- _. by split.
  - pose proof (kill_pinned_process_state t confirm (state w)) as Hst.
    destruct (_kill_pinned_process t confirm (state w)) as [st dlg].
    simpl in Hst. injection Hslot as <- _. unfold coloured. simpl.
    destruct (pid_truthy (pinned_pid (state w))) as [pid|];
      [|by rewrite Hst].
    destruct (confirm && is_ok (t pid)); rewrite Hst; [|done].
    by split.
  - pose proof (kill_process_state t row (state w)) as Hst.
    destruct (_kill_process t row (state w)) as [st dlg].
    simpl in Hst. injection Hslot as <- _. unfold coloured. simpl.
    by rewrite Hst.
Qed.

Lemma slots_coloured (signals : list signal) (w w' : window) :
  coloured w → slots w signals = Ok w' → coloured w'.
Proof.
  revert w. induction signals as [|s signals IH]; intros w Hw; simpl.
  - by intros [= <-].
  - destruct (slot w s) as [[w1 dlg]|e] eqn:Hs; [|discriminate].
    simpl. apply IH. by eapply slot_coloured.
Qed.

End dashboard_facts.

(** X8: reconciling twice against the same answers of the operating
    system changes nothing more: the pin and the list that one
    reconciliation gives are kept by a second one. *)
Theorem reconcile_idempotent (os_Process : Z → result (string * Q * Z))
    (pinned : option Z) (processes : list proc_row) :
  SystemDashboard.reconcile os_Process
    (SystemDashboard.reconcile os_Process pinned processes).1
    (SystemDashboard.reconcile os_Process pinned processes).2
  = SystemDashboard.reconcile os_Process pinned processes.
Proof.
  destruct (pid_truthy pinned) as [p|] eqn:Hp.
  - apply pid_truthy_inv in Hp as [-> Hp0].
    destruct (os_Process p) as [[[name cpu_percent] rss]|e] eqn:Hq.
    + rewrite !(reconcile_query_ok _ _ name cpu_percent rss) by done.
      simpl. rewrite (reconcile_query_ok _ _ name cpu_percent rss) by done.
      rewrite filter_cons. unfold row_pid at 1. simpl.
      rewrite decide_False by (intros H; by apply H).
      by rewrite filter_other_pids_idemp.
    + rewrite !(reconcile_query_raises _ _ e) by done.
      simpl. by apply reconcile_unpinned.
  - by rewrite !(reconcile_unpinned _ _ _ Hp).
Qed.

(** X9: the reconciliation adds no duplicate: when the pids of the
    process list are unique, so are the pids of the reconciled list and
    of the table. *)
Theorem update_processes_NoDup (os_Process : Z → result (string * Q * Z))
    (st : SystemDashboard.dashboard) (processes : list proc_row) :
  NoDup (row_pid <$> processes) →
  NoDup (row_pid <$> (SystemDashboard.reconcile os_Process
                        (SystemDashboard.pinned_pid st) processes).2)
  ∧ NoDup (row_pid <$> SystemDashboard.process_table
             (SystemDashboard._update_processes os_Process st processes)).
Proof.
  intros Hnd.
  assert (NoDup (row_pid <$> (SystemDashboard.reconcile os_Process
                                (SystemDashboard.pinned_pid st) processes).2))
    as Hrec.
  { unfold SystemDashboard.reconcile.
    destruct (pid_truthy (SystemDashboard.pinned_pid st)) as [p|]; [|done].
    destruct (os_Process p) as [[[name cpu_percent] rss]|e]; [|done].
    cbn [snd]. rewrite fmap_cons. apply NoDup_cons. split.
    - unfold row_pid at 1. simpl.
      intros (r & Hr & [Hne _]%list_elem_of_filter)%list_elem_of_fmap.
      by apply Hne.
    - eapply sublist_NoDup; [exact Hnd|].
      apply fmap_sublist, sublist_filter. }
  split; [exact Hrec|].
  unfold SystemDashboard._update_processes.
  destruct (SystemDashboard.reconcile os_Process
              (SystemDashboard.pinned_pid st) processes) as [pinned l].
  simpl in *. eapply sublist_NoDup; [exact Hrec|].
  apply fmap_sublist, sublist_take.
Qed.

(** Pid 42 is pinned, listed and alive. *)
Lemma update_processes_NoDup_sample :
  NoDup (row_pid <$> SystemDashboard.process_table
           (SystemDashboard._update_processes Samples.Process_sample
              {| SystemDashboard.pinned_pid := Some 42;
                 SystemDashboard.process_table := [] |}
              Samples.rows_sample)).
Proof.
  apply (update_processes_NoDup Samples.Process_sample
           {| SystemDashboard.pinned_pid := Some 42;
              SystemDashboard.process_table := [] |}
           Samples.rows_sample).
  compute_done.
Defined.

(** X10: a pin on pid 0 counts as no pin.  A click on a row of pid 0
    stores the pin, but the reconciliation neither queries that process
    nor moves or clears anything, no row is highlighted, and Ctrl+Z
    answers that no process is pinned. *)
Theorem pid_zero_is_no_pin (st : SystemDashboard.dashboard) :
  SystemDashboard.pinned_pid st = Some 0 →
  (∀ os_Process processes,
     SystemDashboard._update_processes os_Process st processes
     = {| SystemDashboard.pinned_pid := Some 0;
          SystemDashboard.process_table := take 100 processes |})
  ∧ SystemDashboard._highlight_pinned_process st
    = replicate (length (SystemDashboard.process_table st)) false
  ∧ (∀ os_terminate confirm,
       SystemDashboard._kill_pinned_process os_terminate confirm st
       = (st, [SystemDashboard.Warning "Warning"
                 "No pinned process selected"]))
  ∧ (∀ pinned, pinned ≠ Some 0 → SystemDashboard.toggle pinned 0 = Some 0).
Proof.
  intros Hpin. split; [|split; [|split]].
  - intros q l. unfold SystemDashboard._update_processes.
    rewrite reconcile_unpinned by by rewrite Hpin. by rewrite Hpin.
  - apply highlight_unpinned. by rewrite Hpin.
  - intros t confirm. unfold SystemDashboard._kill_pinned_process.
    by rewrite Hpin.
  - intros pinned Hne. unfold SystemDashboard.toggle.
    by rewrite decide_True.
Qed.

(** Pid 0 is pinned and alive; the list has it in second place. *)
Lemma pid_zero_is_no_pin_sample :
  SystemDashboard._update_processes (λ _, Ok ("System Idle", 0%Q, 8192))
    {| SystemDashboard.pinned_pid := Some 0;
       SystemDashboard.process_table := [] |}
    [ (4, Some "System", 1%Q, 100); (0, Some "System Idle", 0%Q, 8192) ]
  = {| SystemDashboard.pinned_pid := Some 0;
       SystemDashboard.process_table :=
         [ (4, Some "System", 1%Q, 100);
           (0, Some "System Idle", 0%Q, 8192) ] |}.
Proof.
  apply (proj1 (pid_zero_is_no_pin
                  {| SystemDashboard.pinned_pid := Some 0;
                     SystemDashboard.process_table := [] |} eq_refl)).
Defined.

(** X11: after an update with a pinned process that answers the live
    query, the first row of the table is highlighted and no other row
    is. *)
Theorem update_processes_highlights_first
    (os_Process : Z → result (string * Q * Z))
    (st : SystemDashboard.dashboard) (processes : list proc_row)
    (p : Z) (x : string * Q * Z) :
  SystemDashboard.pinned_pid st = Some p → p ≠ 0 →
  os_Process p = Ok x →
  ∃ n : nat,
    SystemDashboard._highlight_pinned_process
      (SystemDashboard._update_processes os_Process st processes)
    = true :: replicate n false
    ∧ length (SystemDashboard.process_table
                (SystemDashboard._update_processes os_Process st processes))
      = S n.
Proof.
  intros Hpin Hp Hq. destruct x as [[name cpu_percent] rss].
  unfold SystemDashboard._update_processes. rewrite Hpin.
  rewrite (reconcile_query_ok _ _ name cpu_percent rss) by done.
  unfold SystemDashboard._highlight_pinned_process.
  cbn [SystemDashboard.pinned_pid SystemDashboard.process_table take].
  rewrite pid_truthy_Some by done.
  exists (length (take 99 (filter (λ proc, row_pid proc ≠ p) processes))).
  split; [|done].
  rewrite fmap_cons. unfold row_pid at 1. cbn [fst snd].
  rewrite bool_decide_eq_true_2 by done. f_equal.
  apply highlight_others, Forall_take, Forall_forall.
  by intros r [Hr _]%list_elem_of_filter.
Qed.

(** Pid 42 is pinned, listed in second place, and alive. *)
Lemma update_processes_highlights_first_sample :
  SystemDashboard._highlight_pinned_process
    (SystemDashboard._update_processes Samples.Process_sample
       {| SystemDashboard.pinned_pid := Some 42;
          SystemDashboard.process_table := [] |}
       Samples.rows_sample)
  = [true; false; false].
Proof.
  assert ((42 : Z) ≠ 0) as Hp by lia.
  destruct (update_processes_highlights_first Samples.Process_sample
              {| SystemDashboard.pinned_pid := Some 42;
                 SystemDashboard.process_table := [] |}
              Samples.rows_sample 42 _ eq_refl Hp eq_refl)
    as (n & -> & Hn).
  injection Hn as <-. reflexivity.
Defined.

(** X12: a click on a row of a process that is not pinned yet, followed
    by an update in which that process answers the live query, leaves
    that process pinned and in the first row of the table, with the other
    processes of the new list behind it. *)
Theorem click_then_update (os_Process : Z → result (string * Q * Z))
    (st : SystemDashboard.dashboard) (row : nat) (r : proc_row)
    (processes : list proc_row) (name : string) (cpu_percent : Q) (rss : Z) :
  SystemDashboard.process_table st !! row = Some r →
  row_pid r ≠ 0 →
  SystemDashboard.pinned_pid st ≠ Some (row_pid r) →
  os_Process (row_pid r) = Ok (name, cpu_percent, rss) →
  (st' ← SystemDashboard._toggle_pinned_process st row;
   Ok (SystemDashboard._update_processes os_Process st' processes))
  = Ok {| SystemDashboard.pinned_pid := Some (row_pid r);
          SystemDashboard.process_table :=
            (row_pid r, Some name, cpu_percent, rss)
              :: take 99 (filter (λ proc, row_pid proc ≠ row_pid r)
                                 processes) |}.
Proof.
  intros Hrow Hp Hne Hq. unfold SystemDashboard._toggle_pinned_process.
  rewrite Hrow. simpl. unfold SystemDashboard._update_processes. simpl.
  unfold SystemDashboard.toggle. rewrite decide_True by done.
  by rewrite (reconcile_query_ok _ _ name cpu_percent rss).
Qed.

(** Nothing is pinned; the second row of the table, pid 42, is clicked. *)
Lemma click_then_update_sample :
  (st' ← SystemDashboard._toggle_pinned_process
           {| SystemDashboard.pinned_pid := None;
              SystemDashboard.process_table := Samples.rows_sample |} 1;
   Ok (SystemDashboard._update_processes Samples.Process_sample st'
         Samples.rows_sample))
  = Ok {| SystemDashboard.pinned_pid := Some 42;
          SystemDashboard.process_table := Samples.table_sample |}.
Proof.
  assert (row_pid (42, Some "worker", (125 # 10)%Q, 65536) ≠ 0) as Hp
    by (unfold row_pid; simpl; lia).
  apply (click_then_update Samples.Process_sample
           {| SystemDashboard.pinned_pid := None;
              SystemDashboard.process_table := Samples.rows_sample |}
           1 (42, Some "worker", (125 # 10)%Q, 65536)
           Samples.rows_sample "worker" (130 # 10)%Q 70000
           eq_refl Hp).
  - discriminate.
  - reflexivity.
Defined.

(** X13: when the button terminates the pinned process, the pin is still
    there after the command; the next update clears it when the live
    query of the process fails, and keeps it, with the process on top,
    for as long as the process still answers. *)
Theorem kill_process_then_update (os_terminate : Z → result unit)
    (os_Process : Z → result (string * Q * Z))
    (st : SystemDashboard.dashboard) (current_row : Z) (r : proc_row)
    (processes : list proc_row) :
  0 ≤ current_row →
  SystemDashboard.process_table st !! Z.to_nat current_row = Some r →
  row_pid r ≠ 0 →
  SystemDashboard.pinned_pid st = Some (row_pid r) →
  let st' := (SystemDashboard._kill_process os_terminate current_row st).1 in
  SystemDashboard.pinned_pid st' = Some (row_pid r)
  ∧ (∀ e, os_Process (row_pid r) = Raise e →
          SystemDashboard._update_processes os_Process st' processes
          = {| SystemDashboard.pinned_pid := None;
               SystemDashboard.process_table := take 100 processes |})
  ∧ (∀ name cpu_percent rss,
       os_Process (row_pid r) = Ok (name, cpu_percent, rss) →
       SystemDashboard._update_processes os_Process st' processes
       = {| SystemDashboard.pinned_pid := Some (row_pid r);
            SystemDashboard.process_table :=
              (row_pid r, Some name, cpu_percent, rss)
                :: take 99 (filter (λ proc, row_pid proc ≠ row_pid r)
                                   processes) |}).
Proof.
  intros Hrow Hr Hp Hpin st'. subst st'.
  rewrite kill_process_state. split; [done|].
  unfold SystemDashboard._update_processes. rewrite Hpin. split.
  - intros e He. by rewrite (reconcile_query_raises _ _ e).
  - intros name cpu_percent rss Hq.
    by rewrite (reconcile_query_ok _ _ name cpu_percent rss).
Qed.

(** Pid 42 is pinned, in the first row; the button terminates it and it
    is gone at the next update. *)
Lemma kill_process_then_update_sample :
  SystemDashboard._update_processes Samples.Process_gone
    (SystemDashboard._kill_process Samples.terminate_ok 0
       {| SystemDashboard.pinned_pid := Some 42;
          SystemDashboard.process_table := Samples.table_sample |}).1
    Samples.rows_sample
  = {| SystemDashboard.pinned_pid := None;
       SystemDashboard.process_table := Samples.rows_sample |}.
Proof.
  assert (0 ≤ (0 : Z)) as Hrow by lia.
  assert (row_pid (42, Some "worker", (130 # 10)%Q, 70000) ≠ 0) as Hp
    by (unfold row_pid; simpl; lia).
  destruct (kill_process_then_update Samples.terminate_ok
              Samples.Process_gone
              {| SystemDashboard.pinned_pid := Some 42;
                 SystemDashboard.process_table := Samples.table_sample |}
              0 (42, Some "worker", (130 # 10)%Q, 70000)
              Samples.rows_sample Hrow eq_refl Hp eq_refl)
    as (_ & Hgone & _).
  apply (Hgone (Exc "process no longer exists (pid=42)")). reflexivity.
Defined.

(** X14: whatever signals the window has handled since it was created,
    the rows that are highlighted are exactly the rows of the pinned
    pid (none when nothing or pid 0 is pinned), and the table has at
    most 100 rows. *)
Theorem slots_keep_colouring (signals : list SystemDashboard.signal)
    (w : SystemDashboard.window) :
  SystemDashboard.slots SystemDashboard.__init__ signals = Ok w →
  SystemDashboard.highlighted w
  = SystemDashboard._highlight_pinned_process (SystemDashboard.state w)
  ∧ (length (SystemDashboard.process_table (SystemDashboard.state w))
     ≤ 100)%nat.
Proof.
  intros Hw. eapply (slots_coloured signals SystemDashboard.__init__ w);
    [|exact Hw].
  split; [done|]. simpl. lia.
Qed.

(** A pin set by a click and kept through two kill commands. *)
Lemma slots_keep_colouring_sample :
  ∃ w, SystemDashboard.slots SystemDashboard.__init__ Samples.signals_sample
       = Ok w
       ∧ SystemDashboard.highlighted w
         = SystemDashboard._highlight_pinned_process (SystemDashboard.state w)
       ∧ SystemDashboard.highlighted w = [true; false; false].
Proof.
  destruct (SystemDashboard.slots SystemDashboard.__init__
              Samples.signals_sample) as [w|e] eqn:Hw; [|discriminate Hw].
  exists w. split; [reflexivity|].
  destruct (slots_keep_colouring Samples.signals_sample w Hw) as [Hcol _].
  split; [exact Hcol|]. injection Hw as <-. reflexivity.
Defined.

(** * Further properties of the tabs *)

Section tabs.
Import SystemDashboard.

(** [int] rounds towards zero: between two integers it stays between
    them. *)
Lemma int_between (lo hi : Z) (x : Q) :
  (inject_Z lo <= x)%Q → (x <= inject_Z hi)%Q → lo ≤ int x ≤ hi.
Proof.
  destruct x as [n d]. unfold Qle, int. simpl.
  rewrite !Z.mul_1_r. intros Hlo Hhi.
  destruct (Z.le_gt_cases 0 n) as [Hn|Hn].
  - rewrite Z.quot_div_nonneg by lia. split.
    + apply Z.div_le_lower_bound; lia.
    + apply Z.div_le_upper_bound; lia.
  - replace n with (- - n) by lia.
    rewrite Z.quot_opp_l by lia.
    rewrite Z.quot_div_nonneg by lia. split.
    + assert (- n / Z.pos d ≤ - lo); [|lia].
      apply Z.div_le_upper_bound; lia.
    + assert (- hi ≤ - n / Z.pos d); [|lia].
      apply Z.div_le_lower_bound; lia.
Qed.

(** Below a reading that is not negative, and less than 1 below. *)
Lemma int_floor (x : Q) :
  (0 <= x)%Q → (inject_Z (int x) <= x)%Q ∧ (x < inject_Z (int x + 1))%Q.
Proof.
  destruct x as [n d]. unfold Qle, Qlt, int. simpl.
  rewrite !Z.mul_1_r. intros Hn.
  rewrite Z.quot_div_nonneg by lia.
  pose proof (Z.mul_div_le n (Z.pos d) ltac:(lia)).
  pose proof (Z.mul_succ_div_gt n (Z.pos d) ltac:(lia)).
  lia.
Qed.








(** Setting the items of one row, cell by cell. *)
Lemma set_cells (pre suf : list (option string)) (items : list string) :
  (length items ≤ length suf)%nat →
  foldl (λ r '(col, item), <[col := Some item]> r) (pre ++ suf)
        (imap (λ i item, (length pre + i, item)%nat) items)
  = pre ++ (Some <$> items) ++ drop (length items) suf.
Proof.
  revert pre suf. induction items as [|x xs IH]; intros pre suf Hlen.
  - by rewrite drop_0.
  - destruct suf as [|y suf]; [simpl in Hlen; lia|].
    rewrite imap_cons. cbn [foldl].
    rewrite insert_app_r. cbn [insert list_insert].
    rewrite (imap_ext _ (λ i item, (length (pre ++ [Some x]) + i, item)%nat));
      cycle 1.
    { intros i item _. simpl. rewrite length_app. simpl. f_equal. lia. }
    rewrite (cons_middle (Some x) pre suf), (assoc_L (++) pre).
    rewrite (IH (pre ++ [Some x]) suf) by (simpl in Hlen; lia).
    by rewrite <- (assoc_L (++) pre).
Qed.

Lemma setItem_row (row : nat) (table : QTableWidget)
    (l : list (nat * string)) :
  foldl (λ table '(col, item), setItem row col item table) table l
  = {| columnCount := columnCount table;
       cells := alter (λ r, foldl (λ r '(col, item), <[col := Some item]> r)
                                  r l) row (cells table) |}.
Proof.
  revert table. induction l as [|[col item] l IH]; intros table.
  - cbn [foldl]. rewrite list_alter_id by done. by destruct table.
  - cbn [foldl]. rewrite IH. unfold setItem. cbn [columnCount cells].
    f_equal. by rewrite list_alter_alter_eq.
Qed.

(** Setting the items of the rows, row by row. *)
Lemma set_rows (n : nat) (pre suf : list (list (option string)))
    (data : list (list string)) :
  (length data ≤ length suf)%nat →
  Forall (λ r, length r = n) suf →
  Forall (λ items : list string, length items = n) data →
  foldl (λ c '(row, items),
           alter (λ r, foldl (λ r '(col, item), <[col := Some item]> r) r
                             (imap pair (items : list string))) row c)
        (pre ++ suf)
        (imap (λ i items, (length pre + i, items)%nat) data)
  = pre ++ ((λ items : list string, Some <$> items) <$> data) ++ drop (length data) suf.
Proof.
  revert pre suf. induction data as [|items data IH]; intros pre suf Hlen Hsuf Hdata.
  - by rewrite drop_0.
  - destruct suf as [|r suf]; [simpl in Hlen; lia|].
    apply Forall_cons in Hsuf as [Hr Hsuf].
    apply Forall_cons in Hdata as [Hitems Hdata].
    rewrite imap_cons. cbn [foldl].
    rewrite alter_app_r. cbn [alter list_alter].
    pose proof (set_cells [] r items ltac:(lia)) as Hset.
    cbn [length app] in Hset.
    rewrite (imap_ext _ pair) in Hset by done.
    rewrite Hset, drop_ge, app_nil_r by lia.
    rewrite (imap_ext _ (λ i its, (length (pre ++ [Some <$> items]) + i, its)%nat));
      cycle 1.
    { intros i its _. simpl. rewrite length_app. simpl. f_equal. lia. }
    rewrite (cons_middle (Some <$> items) pre suf), (assoc_L (++) pre).
    rewrite (IH (pre ++ [Some <$> items]) suf) by (simpl in Hlen; done || lia).
    by rewrite <- (assoc_L (++) pre).
Qed.

Lemma update_table_cells (table : QTableWidget) (l : list (nat * list string)) :
  foldl (λ table '(row, items),
           foldl (λ table '(col, item), setItem row col item table)
                 table (imap pair (items : list string)))
        table l
  = {| columnCount := columnCount table;
       cells :=
         foldl (λ c '(row, items),
                  alter (λ r, foldl (λ r '(col, item), <[col := Some item]> r)
                                    r (imap pair (items : list string)))
                        row c)
               (cells table) l |}.
Proof.
  revert table. induction l as [|[row items] l IH]; intros table.
  - by destruct table.
  - cbn [foldl]. rewrite IH, setItem_row. done.
Qed.

End tabs.

(** X15: the CPU meter and the memory meter show the integer part of the
    reading: for a reading from 0 to 100 a value from 0 to 100, not above
    the reading and less than 1 below it. *)
Theorem meters_in_range (c : cpu_data) (m : memory_data) :
  (0 <= cpu_Load c)%Q → (cpu_Load c <= 100)%Q →
  (0 <= md_percent m)%Q → (md_percent m <= 100)%Q →
  0 ≤ (SystemDashboard._update_cpu c).1 ≤ 100
  ∧ (inject_Z (SystemDashboard._update_cpu c).1 <= cpu_Load c)%Q
  ∧ (cpu_Load c < inject_Z ((SystemDashboard._update_cpu c).1 + 1))%Q
  ∧ 0 ≤ (SystemDashboard._update_memory m).1 ≤ 100
  ∧ (inject_Z (SystemDashboard._update_memory m).1 <= md_percent m)%Q
  ∧ (md_percent m < inject_Z ((SystemDashboard._update_memory m).1 + 1))%Q.
Proof.
  intros Hc0 Hc1 Hm0 Hm1. simpl.
  pose proof (int_between 0 100 (cpu_Load c) Hc0 Hc1).
  pose proof (int_between 0 100 (md_percent m) Hm0 Hm1).
  destruct (int_floor (cpu_Load c) Hc0).
  destruct (int_floor (md_percent m) Hm0).
  done.
Qed.

(** A load of 12.5 and a memory use of 99.9 per cent. *)
Lemma meters_in_range_sample :
  0 ≤ (SystemDashboard._update_cpu
         {| cpu_Model := "Example CPU"; cpu_Cores := (Some 4, Some 8);
            cpu_Frequency := FreqNA; cpu_Temperature := TempNA;
            cpu_Load := 125 # 10 |}).1 ≤ 100
  ∧ 0 ≤ (SystemDashboard._update_memory
           {| md_total := 1000; md_used := 999;
              md_percent := 999 # 10 |}).1 ≤ 100.
Proof.
  assert (0 <= 125 # 10)%Q as H1 by done.
  assert (125 # 10 <= 100)%Q as H2 by done.
  assert (0 <= 999 # 10)%Q as H3 by done.
  assert (999 # 10 <= 100)%Q as H4 by done.
  destruct (meters_in_range
    {| cpu_Model := "Example CPU"; cpu_Cores := (Some 4, Some 8);
       cpu_Frequency := FreqNA; cpu_Temperature := TempNA;
       cpu_Load := 125 # 10 |}
    {| md_total := 1000; md_used := 999; md_percent := 999 # 10 |}
    H1 H2 H3 H4) as (Hc & _ & _ & Hm & _ & _).
  split; [exact Hc|exact Hm].
Defined.



(** X17: [_update_table] replaces what the table shows: whatever rows the
    table had, more or fewer, after the call it has exactly the rows of
    the data, every cell with the text given, when every row of the data
    has one text per column of the table. *)
Theorem update_table_replaces (table : SystemDashboard.QTableWidget)
    (data : list (list string)) :
  Forall (λ r, length r = SystemDashboard.columnCount table)
         (SystemDashboard.cells table) →
  Forall (λ items : list string,
            length items = SystemDashboard.columnCount table) data →
  SystemDashboard._update_table table data
  = {| SystemDashboard.columnCount := SystemDashboard.columnCount table;
       SystemDashboard.cells := (λ items : list string, Some <$> items) <$> data |}.
Proof.
  intros Htable Hdata. unfold SystemDashboard._update_table.
  rewrite update_table_cells. f_equal.
  unfold SystemDashboard.setRowCount.
  cbn [SystemDashboard.cells SystemDashboard.columnCount].
  pose proof (set_rows (SystemDashboard.columnCount table) []
                (resize (length data)
                   (replicate (SystemDashboard.columnCount table) None)
                   (SystemDashboard.cells table)) data) as Hset.
  cbn [length app] in Hset.
  rewrite (imap_ext _ pair) in Hset by done.
  rewrite Hset.
  - rewrite drop_ge, app_nil_r; [done|]. by rewrite length_resize.
  - by rewrite length_resize.
  - apply Forall_resize; [|done]. by rewrite length_replicate.
  - done.
Qed.

(** A table of two columns and three rows gets two rows. *)
Lemma update_table_replaces_sample :
  SystemDashboard._update_table
    {| SystemDashboard.columnCount := 2;
       SystemDashboard.cells :=
         [ [Some "a"; Some "b"]; [Some "c"; None]; [None; None] ] |}
    [ ["Model"; "Example CPU"]; ["Frequency"; "N/A"] ]
  = {| SystemDashboard.columnCount := 2;
       SystemDashboard.cells :=
         [ [Some "Model"; Some "Example CPU"];
           [Some "Frequency"; Some "N/A"] ] |}.
Proof.
  apply (update_table_replaces
           {| SystemDashboard.columnCount := 2;
              SystemDashboard.cells :=
                [ [Some "a"; Some "b"]; [Some "c"; None]; [None; None] ] |}
           [ ["Model"; "Example CPU"]; ["Frequency"; "N/A"] ]).
  - repeat constructor.
  - repeat constructor.
Defined.

(** * The reader of the CPU model *)

Section cpu_model_facts.
Import SystemMonitor.

Lemma split_from_no_sep (sep : ascii) (acc s : string) :
  has_char sep s = false → split_from sep acc s = [acc +:+ s].
Proof.
  revert acc. induction s as [|c s IH]; intros acc Hs.
  - by rewrite string_app_nil_r.
  - cbn [has_char] in Hs. apply orb_false_iff in Hs as [Hc Hs].
    cbn [split_from]. rewrite Hc, (IH _ Hs).
    by rewrite string_app_assoc.
Qed.

Lemma split_from_sep (sep : ascii) (acc s1 s2 : string) :
  has_char sep s1 = false →
  split_from sep acc (s1 +:+ String sep s2)
  = (acc +:+ s1) :: split_from sep "" s2.
Proof.
  revert acc. induction s1 as [|c s1 IH]; intros acc Hs.
  - change ("" +:+ String sep s2) with (String sep s2).
    cbn [split_from]. by rewrite Ascii.eqb_refl, string_app_nil_r.
  - cbn [has_char] in Hs. apply orb_false_iff in Hs as [Hc Hs].
    rewrite string_app_cons. cbn [split_from]. rewrite Hc, (IH _ Hs).
    by rewrite string_app_assoc.
Qed.

(** [split_last] is the last text of [split]. *)
Lemma split_last_from_split (acc s : string) :
  last (split_from "/" acc s) = Some (split_last_from acc s).
Proof.
  revert acc. induction s as [|c s IH]; intros acc; [done|].
  cbn [split_from split_last_from].
  destruct (Ascii.eqb c "/"); [|apply IH].
  specialize (IH "").
  destruct (split_from "/" "" s) as [|x l]; [discriminate IH|].
  by rewrite <- IH.
Qed.

Lemma model_of_lines_first strip replace (before after : list string)
    (line : string) (r : result string) :
  Forall (λ l, String.prefix "model name" (strip l) = false) before →
  model_of_line strip replace line = Some r →
  model_of_lines strip replace (before ++ line :: after) = Some r.
Proof.
  intros Hbefore Hline.
  induction Hbefore as [|l before Hl _ IH]; simpl.
  - by rewrite Hline.
  - unfold model_of_line at 1. by rewrite Hl.
Qed.

Lemma model_of_lines_none strip replace (lines : list string) :
  Forall (λ l, String.prefix "model name" (strip l) = false) lines →
  model_of_lines strip replace lines = None.
Proof.
  induction 1 as [|l lines Hl _ IH]; simpl; [done|].
  unfold model_of_line. by rewrite Hl.
Qed.

End cpu_model_facts.

(** X18: on Linux the model is read off the first line of /proc/cpuinfo
    that starts with "model name", whatever follows that line: it is the
    text between the first colon and the next one, stripped and without
    the two trademark marks; when that line has no colon the model is
    "Unknown", and [platform.processor()] is not asked. *)
Theorem cpu_model_first_line (strip : string → string)
    (replace : string → string → string → string)
    (os : os_readings) (before after : list string) (line : string)
    (files : list (result (list string))) (processor : result string) :
  os_cpu_model_body os
  = SystemMonitor.cpu_model_body strip replace "Linux"
      (Ok (before ++ line :: after) :: files) processor →
  Forall (λ l, String.prefix "model name" (strip l) = false) before →
  String.prefix "model name" (strip line) = true →
  (has_char ":" line = false → SystemMonitor._get_cpu_model os = "Unknown")
  ∧ (∀ key value rest,
       has_char ":" key = false → has_char ":" value = false →
       line = key +:+ ":" +:+ value
       ∨ line = key +:+ ":" +:+ value +:+ ":" +:+ rest →
       SystemMonitor._get_cpu_model os
       = replace "(TM)" "" (replace "(R)" "" (strip value))).
Proof.
  intros Hbody Hbefore Hline.
  unfold SystemMonitor._get_cpu_model. rewrite Hbody.
  unfold SystemMonitor.cpu_model_body. cbn [String.eqb Ascii.eqb Bool.eqb].
  cbn [SystemMonitor.model_of_files]. split.
  - intros Hno.
    rewrite (model_of_lines_first strip replace before after line
               (Raise (Exc "list index out of range")) Hbefore); [done|].
    unfold SystemMonitor.model_of_line. rewrite Hline.
    unfold split. by rewrite split_from_no_sep.
  - intros key value rest Hkey Hvalue Hshape.
    rewrite (model_of_lines_first strip replace before after line
               (Ok (replace "(TM)" "" (replace "(R)" "" (strip value))))
               Hbefore); [done|].
    unfold SystemMonitor.model_of_line. rewrite Hline.
    unfold split. destruct Hshape as [-> | ->].
    + change (key +:+ ":" +:+ value) with (key +:+ String ":" value).
      rewrite split_from_sep by done.
      by rewrite split_from_no_sep.
    + change (key +:+ ":" +:+ value +:+ ":" +:+ rest)
        with (key +:+ String ":" (value +:+ String ":" rest)).
      rewrite split_from_sep by done.
      by rewrite split_from_sep.
Qed.

(** A file whose second line is the model name. *)
Lemma cpu_model_first_line_sample :
  SystemMonitor._get_cpu_model
    (Samples.os_model
       (SystemMonitor.cpu_model_body Samples.strip_id Samples.replace_id
          "Linux"
          [Ok ["processor : 0"; "model name : Example"; "model name"]]
          (Ok "x86_64")))
  = " Example".
Proof.
  apply (proj2 (cpu_model_first_line Samples.strip_id Samples.replace_id
                  (Samples.os_model _)
                  ["processor : 0"] ["model name"] "model name : Example"
                  [] (Ok "x86_64") eq_refl
                  ltac:(repeat constructor) eq_refl)
           "model name " " Example" "").
  - reflexivity.
  - reflexivity.
  - by left.
Defined.

(** X19: outside Linux, and on Linux when every file of the glob opens
    and no line of them starts with "model name", the model is what
    [platform.processor()] answers, and "Unknown" when that raises; a
    file that cannot be opened gives "Unknown". *)
Theorem cpu_model_fallback (strip : string → string)
    (replace : string → string → string → string)
    (os : os_readings) (system : string)
    (files : list (result (list string))) (processor : result string) :
  os_cpu_model_body os
  = SystemMonitor.cpu_model_body strip replace system files processor →
  (system ≠ "Linux"
   ∨ Forall (λ file, ∃ lines,
               file = Ok lines
               ∧ Forall (λ l, String.prefix "model name" (strip l) = false)
                        lines) files →
   SystemMonitor._get_cpu_model os
   = match processor with Ok model => model | Raise _ => "Unknown" end)
  ∧ (system = "Linux" →
     ∀ e files', files = Raise e :: files' →
     SystemMonitor._get_cpu_model os = "Unknown").
Proof.
  intros Hbody. unfold SystemMonitor._get_cpu_model. rewrite Hbody.
  unfold SystemMonitor.cpu_model_body. split.
  - intros [Hsys|Hfiles].
    + by apply String.eqb_neq in Hsys as ->.
    + destruct (String.eqb system "Linux"); [|done].
      assert (SystemMonitor.model_of_files strip replace files = None) as ->;
        [|done].
      clear Hbody.
      induction Hfiles as [|file files (lines & -> & Hlines) _ IH]; [done|].
      simpl. by rewrite model_of_lines_none.
  - intros -> e files' ->. done.
Qed.

(** Windows: the file list does not matter. *)
Lemma cpu_model_fallback_sample :
  SystemMonitor._get_cpu_model
    (Samples.os_model
       (SystemMonitor.cpu_model_body Samples.strip_id Samples.replace_id
          "Windows" [Ok ["model name : Example"]]
          (Ok "Intel64 Family 6")))
  = "Intel64 Family 6".
Proof.
  apply (proj1 (cpu_model_fallback Samples.strip_id Samples.replace_id
                  (Samples.os_model _) "Windows"
                  [Ok ["model name : Example"]] (Ok "Intel64 Family 6")
                  eq_refl)).
  left. discriminate.
Defined.
